(** * Swift app builder scripts: validator and scaffolder

    A shallow embedding of [scripts/swift_validate.py] and
    [scripts/scaffold_project.py].

    Python text is [string]; the [result] dictionary of the validator is a
    record with its three keys; the template table is a finite map keyed by
    platform name.  The scripts talk to the outside through a temporary
    file, child processes and the standard streams: those are an explicit
    [world], threaded through a state-and-exception monad, and the answers
    of the operating system are read from a [host] record. *)

From Stdlib Require Import String Ascii ZArith List Bool.
From stdpp Require Import base option gmap strings fin_maps.

Local Open Scope string_scope.
Local Open Scope Z_scope.

(** ** Text *)

Module Text.

(** The two characters that cannot be typed inside a literal. *)
Definition nl : string := String (ascii_of_nat 10) EmptyString.
Definition dq : string := String (ascii_of_nat 34) EmptyString.

(** Truth value of a [str]: the empty string is false. *)
Definition truthy (s : string) : bool :=
  match s with
  | EmptyString => false
  | String _ _ => true
  end.

(** Truth value of an optional [str] ([None] is false). *)
Definition truthy_opt (o : option string) : bool :=
  match o with
  | None => false
  | Some s => truthy s
  end.

(** [startswith p s]: [s] begins with [p]. *)
Fixpoint startswith (p s : string) : bool :=
  match p, s with
  | EmptyString, _ => true
  | String _ _, EmptyString => false
  | String a p', String b s' => if Ascii.eqb a b then startswith p' s' else false
  end.

(** Python's [needle in hay] on strings. *)
Fixpoint str_in (needle hay : string) : bool :=
  startswith needle hay ||
  match hay with
  | EmptyString => false
  | String _ hay' => str_in needle hay'
  end.

(** The same as a proposition: [hay] splits around an occurrence. *)
Definition occurs (needle hay : string) : Prop :=
  exists pre post, hay = pre +:+ needle +:+ post.

(** Blank characters: space, tab, line feed, carriage return. *)
Definition is_space (c : ascii) : bool :=
  let n := nat_of_ascii c in
  (n =? 32)%nat || (n =? 9)%nat || (n =? 10)%nat || (n =? 13)%nat.

Fixpoint all_space (s : string) : bool :=
  match s with
  | EmptyString => true
  | String c s' => is_space c && all_space s'
  end.

Fixpoint has_char (c : ascii) (s : string) : bool :=
  match s with
  | EmptyString => false
  | String d s' => Ascii.eqb c d || has_char c s'
  end.

End Text.

Import Text.

(** ** Exceptions and the monad *)

(** The exception classes the scripts can tell apart.  [Exception] stands
    for every instance of Python's [Exception] other than
    [subprocess.TimeoutExpired]; [SystemExit] and [KeyboardInterrupt] derive
    from [BaseException] only, so an [except Exception] clause lets them
    through. *)
Inductive exn : Type :=
| TimeoutExpired (msg : string)
| Exception (msg : string)
| SystemExit (status : Z)
| KeyboardInterrupt.

(** [str(e)]. *)
Definition str_exn (e : exn) : string :=
  match e with
  | TimeoutExpired m => m
  | Exception m => m
  | SystemExit _ => ""
  | KeyboardInterrupt => ""
  end.

(** A call either returns a value or raises; both leave a state behind. *)
Inductive outcome (S A : Type) : Type :=
| Returned (a : A) (s : S)
| Raised (e : exn) (s : S).
Arguments Returned {S A} a s.
Arguments Raised {S A} e s.

Definition M (S A : Type) : Type := S -> outcome S A.

Definition ret {S A} (a : A) : M S A := fun s => Returned a s.

Definition bind {S A B} (m : M S A) (k : A -> M S B) : M S B :=
  fun s =>
    match m s with
    | Returned a s' => k a s'
    | Raised e s' => Raised e s'
    end.

Definition raise {S A} (e : exn) : M S A := fun s => Raised e s.
Definition get {S} : M S S := fun s => Returned s s.
Definition modify {S} (f : S -> S) : M S unit := fun s => Returned tt (f s).

Notation "'let*' x := c1 'in' c2" := (bind c1 (fun x => c2))
  (at level 10, x name, c1 at level 100, c2 at level 200).
Notation "'do*' c1 'in' c2" := (bind c1 (fun _ => c2))
  (at level 10, c1 at level 100, c2 at level 200).

(** [try: body except ...: handler].  [handler e] is [None] when no
    [except] clause matches [e], which then keeps propagating. *)
Definition try_except {S A} (body : M S A) (handler : exn -> option (M S A))
  : M S A :=
  fun s =>
    match body s with
    | Returned a s' => Returned a s'
    | Raised e s' =>
        match handler e with
        | Some h => h s'
        | None => Raised e s'
        end
    end.

(** [try: body finally: fin].  [fin] runs on both ways out; an exception
    of [fin] replaces whatever [body] was doing. *)
Definition try_finally {S A} (body : M S A) (fin : M S unit) : M S A :=
  fun s =>
    match body s with
    | Returned a s' =>
        match fin s' with
        | Returned _ s'' => Returned a s''
        | Raised e s'' => Raised e s''
        end
    | Raised e s' =>
        match fin s' with
        | Returned _ s'' => Raised e s''
        | Raised e' s'' => Raised e' s''
        end
    end.

(** ** The world outside the interpreter *)

(** What [subprocess.run(..., capture_output=True, text=True)] hands back. *)
Record CompletedProcess : Type := mkCompleted {
  returncode : Z;
  proc_stdout : string;
  proc_stderr : string
}.

(** [files] maps a path to the text stored there; [spawned] lists the
    argument vectors handed to [subprocess.run] so far, oldest first;
    the three streams are those of the running script. *)
Record world : Type := mkWorld {
  files : gmap string string;
  spawned : list (list string);
  stdin : string;
  stdout : string;
  stderr : string
}.

Definition set_files (f : gmap string string -> gmap string string)
  (w : world) : world :=
  mkWorld (f (files w)) (spawned w) (stdin w) (stdout w) (stderr w).

Definition log_spawn (cmd : list string) (w : world) : world :=
  mkWorld (files w) (spawned w ++ [cmd]) (stdin w) (stdout w) (stderr w).

Definition to_stdout (s : string) (w : world) : world :=
  mkWorld (files w) (spawned w) (stdin w) (stdout w +:+ s) (stderr w).

Definition to_stderr (s : string) (w : world) : world :=
  mkWorld (files w) (spawned w) (stdin w) (stdout w) (stderr w +:+ s).

(** The answers of the operating system.
    - [fresh_temp suffix fs]: the name [tempfile] picks, or its fault;
    - [write_fault path text]: the fault of writing [text], if any
      (encoding, disk full), with the part of the text that reached the
      file before it;
    - [child cmd timeout fs]: what [subprocess.run] does for [cmd]: it
      returns the completed process or raises (a missing executable, a
      decoding error, [TimeoutExpired] when a timeout was given and
      elapsed), and the child may have changed the files meanwhile; its
      output is captured, and what it reads of the standard input it
      inherits is not followed here;
    - [unlink_fault path fs]: the fault of removing an existing [path], if
      any (permissions);
    - [read_fault path]: the fault of reading an existing [path], if any. *)
Record host : Type := mkHost {
  fresh_temp : string -> gmap string string -> exn + string;
  write_fault : string -> string -> option (exn * string);
  child : list string -> option Z -> gmap string string ->
          (exn + CompletedProcess) * gmap string string;
  unlink_fault : string -> gmap string string -> option exn;
  read_fault : string -> option exn
}.

(** ** The library calls the scripts make *)

Section Calls.

Variable h : host.

(** [tempfile.NamedTemporaryFile(mode='w', suffix=..., delete=False)]:
    creates an empty file and yields its name. *)
Definition NamedTemporaryFile (suffix : string) : M world string :=
  fun w =>
    match fresh_temp h suffix (files w) with
    | inl e => Raised e w
    | inr name => Returned name (set_files (fun fs => <[name := ""]> fs) w)
    end.

(** [f.write(text)] followed by the close at the end of the [with] block. *)
Definition file_write (name text : string) : M world unit :=
  fun w =>
    match write_fault h name text with
    | Some (e, part) => Raised e (set_files (fun fs => <[name := part]> fs) w)
    | None => Returned tt (set_files (fun fs => <[name := text]> fs) w)
    end.

(** [subprocess.run(cmd, capture_output=True, text=True, timeout=...)]. *)
Definition subprocess_run (cmd : list string) (timeout : option Z)
  : M world CompletedProcess :=
  fun w =>
    let w1 := log_spawn cmd w in
    match child h cmd timeout (files w) with
    | (inl e, fs) => Raised e (set_files (fun _ => fs) w1)
    | (inr p, fs) => Returned p (set_files (fun _ => fs) w1)
    end.

(** [os.unlink(path)]. *)
Definition os_unlink (path : string) : M world unit :=
  fun w =>
    match files w !! path with
    | None =>
        Raised (Exception ("[Errno 2] No such file or directory: '"
                           +:+ path +:+ "'")) w
    | Some _ =>
        match unlink_fault h path (files w) with
        | Some e => Raised e w
        | None => Returned tt (set_files (fun fs => delete path fs) w)
        end
    end.

(** [with open(path, 'r') as f: f.read()]. *)
Definition read_file (path : string) : M world string :=
  fun w =>
    match files w !! path with
    | None =>
        Raised (Exception ("[Errno 2] No such file or directory: '"
                           +:+ path +:+ "'")) w
    | Some text =>
        match read_fault h path with
        | Some e => Raised e w
        | None => Returned text w
        end
    end.

(** [sys.stdin.read()]: the whole of the standard input, which the script
    reads at most once. *)
Definition stdin_read : M world string :=
  fun w => Returned (stdin w) w.

(** [print(s)] and [print(s, file=sys.stderr)]. *)
Definition print (s : string) : M world unit :=
  modify (to_stdout (s +:+ nl)).

Definition print_err (s : string) : M world unit :=
  modify (to_stderr (s +:+ nl)).

(** [sys.exit(n)]. *)
Definition sys_exit {A} (n : Z) : M world A := raise (SystemExit n).

End Calls.

(** ** swift_validate.py *)

Module Validate.

(** The dictionary [validate_swift_code] builds and returns. *)
Record ValidationResult : Type := mkResult {
  valid : bool;
  output : string;
  errors : string
}.

(** The activation of [validate_swift_code]: the world and the local
    [result], which the body updates in place, so that an update made
    before an exception is still there in the handler. *)
Record frame : Type := mkFrame {
  outside : world;
  result : ValidationResult
}.

Definition in_world {A} (m : M world A) : M frame A :=
  fun fr =>
    match m (outside fr) with
    | Returned a w => Returned a (mkFrame w (result fr))
    | Raised e w => Raised e (mkFrame w (result fr))
    end.

Definition on_result (f : ValidationResult -> ValidationResult)
  : M frame unit :=
  modify (fun fr => mkFrame (outside fr) (f (result fr))).

(** [result['valid'] = b], [result['output'] = s], [result['output'] += s]
    and [result['errors'] = s]. *)
Definition set_valid (b : bool) : M frame unit :=
  on_result (fun r => mkResult b (output r) (errors r)).
Definition set_output (s : string) : M frame unit :=
  on_result (fun r => mkResult (valid r) s (errors r)).
Definition add_output (s : string) : M frame unit :=
  on_result (fun r => mkResult (valid r) (output r +:+ s) (errors r)).
Definition set_errors (s : string) : M frame unit :=
  on_result (fun r => mkResult (valid r) (output r) s).

Definition passed_msg : string := "✓ Syntax and type checking passed".
Definition timeout_msg : string := "Execution timeout (5s limit)".
Definition fault_prefix : string := "Validation error: ".

Definition typecheck_cmd (temp_file : string) : list string :=
  ["swiftc"; "-typecheck"; temp_file].
Definition exec_cmd (temp_file : string) : list string :=
  ["swift"; temp_file].

Section Validator.

Variable h : host.

(** The statements under [try:].  The value is [Some r] when a [return r]
    was executed and [None] when control falls off the end of the block. *)
Definition try_block (temp_file : string) (run : bool)
  : M frame (option ValidationResult) :=
  let* proc := in_world (subprocess_run h (typecheck_cmd temp_file) None) in
  if negb (returncode proc =? 0) then
    do* set_errors (proc_stderr proc) in
    let* fr := get in
    ret (Some (result fr))
  else
    do* set_valid true in
    do* set_output passed_msg in
    do* (if run then
           let* exec_proc :=
             in_world (subprocess_run h (exec_cmd temp_file) (Some 5)) in
           do* add_output (nl +:+ nl +:+ "--- Execution Output ---" +:+ nl
                           +:+ proc_stdout exec_proc) in
           if truthy (proc_stderr exec_proc) then
             add_output (nl +:+ "--- Warnings ---" +:+ nl
                         +:+ proc_stderr exec_proc)
           else ret tt
         else ret tt) in
    ret None.

(** The two [except] clauses, in order. *)
Definition except_clauses (e : exn)
  : option (M frame (option ValidationResult)) :=
  match e with
  | TimeoutExpired _ =>
      Some (do* set_errors timeout_msg in ret None)
  | Exception _ =>
      Some (do* set_errors (fault_prefix +:+ str_exn e) in ret None)
  | SystemExit _ => None
  | KeyboardInterrupt => None
  end.

(** Lines 31-33: the [with] block that creates and fills the file. *)
Definition acquire (code : string) : M world string :=
  let* name := NamedTemporaryFile h ".swift" in
  do* file_write h name code in
  ret name.

(** Lines 35-60: the [try] statement with its handlers and its
    [finally]. *)
Definition guarded (temp_file : string) (run : bool)
  : M frame (option ValidationResult) :=
  try_finally
    (try_except (try_block temp_file run) except_clauses)
    (in_world (os_unlink h temp_file)).

Definition validate_swift_code (code : string) (run : bool)
  : M world ValidationResult :=
  fun w =>
    let result0 := mkResult false "" "" in
    match acquire code w with
    | Raised e w1 => Raised e w1
    | Returned temp_file w1 =>
        match guarded temp_file run (mkFrame w1 result0) with
        | Raised e fr => Raised e (outside fr)
        | Returned (Some r) fr => Returned r (outside fr)
        | Returned None fr => Returned (result fr) (outside fr)
        end
    end.

(** The f-string of [validate_swiftui_view], as a prefix and a suffix of the
    fragment. *)
Definition wrapper_head : string :=
  nl +:+ "import SwiftUI" +:+ nl +:+ nl.

Definition wrapper_tail : string :=
  nl +:+ nl +:+
  "// Minimal validation wrapper" +:+ nl +:+
  "struct ValidateApp: App {" +:+ nl +:+
  "    var body: some Scene {" +:+ nl +:+
  "        WindowGroup {" +:+ nl +:+
  "            ContentView()" +:+ nl +:+
  "        }" +:+ nl +:+
  "    }" +:+ nl +:+
  "}" +:+ nl.

Definition validate_swiftui_view (view_code : string)
  : M world ValidationResult :=
  let wrapper := wrapper_head +:+ view_code +:+ wrapper_tail in
  validate_swift_code wrapper false.

(** The parsed command line of the validator. *)
Record Namespace : Type := mkArgs {
  arg_file : option string;
  arg_run : bool;
  arg_view : bool;
  arg_code : option string
}.

(** Lines 99-106: where the code comes from. *)
Definition read_code (args : Namespace) : M world string :=
  if truthy_opt (arg_code args) then
    ret (default "" (arg_code args))
  else if truthy_opt (arg_file args) then
    read_file h (default "" (arg_file args))
  else
    do* print "Reading from stdin..." in
    stdin_read.

(** Lines 108-111: which validator runs. *)
Definition dispatch (args : Namespace) (code : string)
  : M world ValidationResult :=
  if arg_view args then validate_swiftui_view code
  else validate_swift_code code (arg_run args).

(** Lines 113-118: the report and the exit status. *)
Definition report (r : ValidationResult) : M world unit :=
  if valid r then
    do* print ("✅ VALID" +:+ nl +:+ output r) in
    sys_exit 0
  else
    do* print_err ("❌ INVALID" +:+ nl +:+ errors r) in
    sys_exit 1.

Definition main (args : Namespace) : M world unit :=
  let* code := read_code args in
  let* r := dispatch args code in
  report r.

(** The interpreter around [main()]: the exit status of the process.  An
    exception other than [SystemExit] ends it with a traceback on the error
    stream and status 1; [KeyboardInterrupt] ends it the same way
    with the status of an interrupted process. *)
Definition script (args : Namespace) (w : world) : Z * world :=
  match main args w with
  | Returned _ w' => (0, w')
  | Raised (SystemExit n) w' => (n, w')
  | Raised KeyboardInterrupt w' => (130, to_stderr "KeyboardInterrupt" w')
  | Raised e w' =>
      (1, to_stderr ("Traceback (most recent call last):" +:+ nl
                     +:+ str_exn e +:+ nl) w')
  end.

End Validator.

End Validate.

(** ** scaffold_project.py *)

Module Scaffold.

(** A record of the template table. *)
Record template : Type := mkTemplate {
  name : string;
  platforms : string;
  deployment_target : string
}.

Definition ios_template : template :=
  mkTemplate "iOS App (SwiftUI)" "iOS" "17.0".
Definition macos_template : template :=
  mkTemplate "macOS App (SwiftUI)" "macOS" "14.0".
Definition multiplatform_template : template :=
  mkTemplate "Multiplatform App" "iOS, macOS" "iOS 17.0, macOS 14.0".

Definition TEMPLATES : gmap string template :=
  <["ios" := ios_template]>
    (<["macos" := macos_template]>
       (<["multiplatform" := multiplatform_template]> ∅)).

(** [d[key]]: a missing key raises [KeyError]. *)
Definition getitem {S V} (d : gmap string V) (key : string) : M S V :=
  match d !! key with
  | Some v => ret v
  | None => raise (Exception ("'" +:+ key +:+ "'"))
  end.

(** [d.get(key, fallback)]. *)
Definition dict_get {V} (d : gmap string V) (key : string) (fallback : V) : V :=
  default fallback (d !! key).

(** A [pathlib.Path] built by the script, kept as it was built. *)
Inductive pypath : Type :=
| Path (s : string)
| Div (p : pypath) (s : string).

(** What the scaffolder asks of the file system, and what it prints. *)
Inductive fs_op : Type :=
| Mkdir (p : pypath) (parents exist_ok : bool)
| WriteText (p : pypath) (text : string).

(** [ops] lists the calls on the file system that have completed, oldest
    first; [terminal] is the standard output and [err_terminal] the error
    stream. *)
Record site : Type := mkSite {
  ops : list fs_op;
  terminal : string;
  err_terminal : string
}.

(** The answers of the tree under the output directory, given the calls
    completed so far.
    - [dir_fault p parents exist_ok done]: the objection to making
      directory [p], if any: [FileNotFoundError] when its parent is missing
      and [parents] is not set, [FileExistsError] when the name is taken
      and [exist_ok] is not set;
    - [file_fault p text done]: the fault of opening [p] for writing or of
      writing [text], if any (a missing directory, a full disk). *)
Record tree : Type := mkTree {
  dir_fault : pypath -> bool -> bool -> list fs_op -> option exn;
  file_fault : pypath -> string -> list fs_op -> option exn
}.

(** [p.mkdir(parents=..., exist_ok=...)].  With both flags set the call
    makes the missing ancestors and accepts a directory that is already
    there, so the tree has nothing to object; otherwise the tree decides. *)
Definition mkdir (tr : tree) (p : pypath) (parents exist_ok : bool)
  : M site unit :=
  fun s =>
    let made :=
      mkSite (ops s ++ [Mkdir p parents exist_ok]) (terminal s)
             (err_terminal s) in
    if parents && exist_ok then Returned tt made
    else
      match dir_fault tr p parents exist_ok (ops s) with
      | Some e => Raised e s
      | None => Returned tt made
      end.

(** [with open(p, 'w') as f: f.write(text)].  A call that raises is not
    entered in [ops]. *)
Definition write_text (tr : tree) (p : pypath) (text : string) : M site unit :=
  fun s =>
    match file_fault tr p text (ops s) with
    | Some e => Raised e s
    | None =>
        Returned tt (mkSite (ops s ++ [WriteText p text]) (terminal s)
                            (err_terminal s))
    end.

Definition say (line : string) : M site unit :=
  modify (fun s => mkSite (ops s) (terminal s +:+ line +:+ nl)
                          (err_terminal s)).

Definition complain (text : string) : M site unit :=
  modify (fun s => mkSite (ops s) (terminal s) (err_terminal s +:+ text)).

(** The two conditional entries of the [platforms] list. *)
Definition ios_entry (t : template) : string :=
  if str_in "iOS" (platforms t) then ".iOS(.v17)" else "".
Definition macos_entry (t : template) : string :=
  if str_in "macOS" (platforms t) then ".macOS(.v14)" else "".

(** The f-string [package_swift] (lines 58-74). *)
Definition package_swift (name : string) (t : template) : string :=
  "// swift-tools-version: 5.9" +:+ nl +:+
  "import PackageDescription" +:+ nl +:+
  nl +:+
  "let package = Package(" +:+ nl +:+
  "    name: " +:+ dq +:+ name +:+ dq +:+ "," +:+ nl +:+
  "    platforms: [" +:+ nl +:+
  "        " +:+ ios_entry t +:+ nl +:+
  "        " +:+ macos_entry t +:+ nl +:+
  "    ]," +:+ nl +:+
  "    products: [" +:+ nl +:+
  "        .executable(name: " +:+ dq +:+ name +:+ dq +:+ ", targets: ["
    +:+ dq +:+ name +:+ dq +:+ "])" +:+ nl +:+
  "    ]," +:+ nl +:+
  "    targets: [" +:+ nl +:+
  "        .executableTarget(name: " +:+ dq +:+ name +:+ dq +:+ ")" +:+ nl +:+
  "    ]" +:+ nl +:+
  ")" +:+ nl.

(** The f-string [main_swift] (lines 83-108). *)
Definition main_swift (name : string) : string :=
  "import SwiftUI" +:+ nl +:+
  nl +:+
  "@main" +:+ nl +:+
  "struct " +:+ name +:+ "App: App {" +:+ nl +:+
  "    var body: some Scene {" +:+ nl +:+
  "        WindowGroup {" +:+ nl +:+
  "            ContentView()" +:+ nl +:+
  "        }" +:+ nl +:+
  "    }" +:+ nl +:+
  "}" +:+ nl +:+
  nl +:+
  "struct ContentView: View {" +:+ nl +:+
  "    var body: some View {" +:+ nl +:+
  "        VStack {" +:+ nl +:+
  "            Text(" +:+ dq +:+ "Welcome to " +:+ name +:+ dq +:+ ")" +:+ nl +:+
  "                .font(.largeTitle)" +:+ nl +:+
  "                .padding()" +:+ nl +:+
  "        }" +:+ nl +:+
  "        .frame(maxWidth: .infinity, maxHeight: .infinity)" +:+ nl +:+
  "    }" +:+ nl +:+
  "}" +:+ nl +:+
  nl +:+
  "#Preview {" +:+ nl +:+
  "    ContentView()" +:+ nl +:+
  "}" +:+ nl.

Definition gitignore : string :=
  ".DS_Store" +:+ nl +:+
  "/.build" +:+ nl +:+
  "/Packages" +:+ nl +:+
  "xcuserdata/" +:+ nl +:+
  "DerivedData/" +:+ nl +:+
  ".swiftpm/" +:+ nl.

Section Scaffolder.

(** [str(p)] of a path, as [pathlib] renders it, and the tree the
    scaffolder works in. *)
Variable fspath : pypath -> string.
Variable tr : tree.

(** Line 57. *)
Definition lookup_template (platform : string) : M site template :=
  let* fallback := getitem TEMPLATES "ios" in
  ret (dict_get TEMPLATES platform fallback).

(** Faults of the directory and file operations are not handled by the
    script and end it where they occur; [site] records the operations
    completed, in program order. *)
Definition create_swiftui_app_structure (name platform path : string)
  : M site pypath :=
  let project_path := Div (Path path) name in
  do* mkdir tr project_path true true in
  let sources_path := Div project_path "Sources" in
  do* mkdir tr sources_path false true in
  let* template := lookup_template platform in
  do* write_text tr (Div project_path "Package.swift")
        (package_swift name template) in
  let app_path := Div sources_path name in
  do* mkdir tr app_path false true in
  do* write_text tr (Div app_path "main.swift") (main_swift name) in
  do* write_text tr (Div project_path ".gitignore") gitignore in
  do* say ("✅ Created SwiftUI app at " +:+ fspath project_path) in
  do* say ("   Platform: " +:+ platforms template) in
  do* say (nl +:+ "To build and run:") in
  do* say ("   cd " +:+ name) in
  do* say "   swift build" in
  do* say "   swift run" in
  ret project_path.

End Scaffolder.

(** A rendering of paths that joins the parts with a slash. *)
Fixpoint joined (p : pypath) : string :=
  match p with
  | Path s => s
  | Div q s => joined q +:+ "/" +:+ s
  end.

(** The six operations of a run, in program order. *)
Definition layout (name path : string) (t : template) : list fs_op :=
  let project_path := Div (Path path) name in
  [ Mkdir project_path true true;
    Mkdir (Div project_path "Sources") false true;
    WriteText (Div project_path "Package.swift") (package_swift name t);
    Mkdir (Div (Div project_path "Sources") name) false true;
    WriteText (Div (Div (Div project_path "Sources") name) "main.swift")
      (main_swift name);
    WriteText (Div project_path ".gitignore") gitignore ].

(** The six lines a run prints at its end, and the terminal after lines
    have been printed on it. *)
Definition epilogue (fspath : pypath -> string) (name path : string)
  (t : template) : list string :=
  [ "✅ Created SwiftUI app at " +:+ fspath (Div (Path path) name);
    "   Platform: " +:+ platforms t;
    nl +:+ "To build and run:";
    "   cd " +:+ name;
    "   swift build";
    "   swift run" ].

Definition said (lines : list string) (before : string) : string :=
  fold_left (fun shown line => shown +:+ line +:+ nl) lines before.

(** *** Two trees *)

(** A tree that never objects. *)
Definition calm_tree : tree :=
  mkTree (fun _ _ _ _ => None) (fun _ _ _ => None).

Fixpoint pypath_eqb (p q : pypath) : bool :=
  match p, q with
  | Path a, Path b => String.eqb a b
  | Div p' a, Div q' b => pypath_eqb p' q' && String.eqb a b
  | _, _ => false
  end.

(** [dir] was made by one of the calls in [done]. *)
Definition made (dir : pypath) (done : list fs_op) : bool :=
  existsb (fun o => match o with
                    | Mkdir q _ _ => pypath_eqb dir q
                    | WriteText _ _ => false
                    end) done.

(** An empty output directory: a directory can be made without [parents]
    only under a directory made before and under a name without a slash,
    and a file can be opened only in a directory made before. *)
Definition fresh_tree : tree :=
  mkTree
    (fun p _ _ done =>
       match p with
       | Div q s =>
           if made q done && negb (has_char "/" s) then None
           else Some (Exception ("[Errno 2] No such file or directory: '"
                                 +:+ joined p +:+ "'"))
       | Path _ => None
       end)
    (fun p _ done =>
       match p with
       | Div q _ =>
           if made q done then None
           else Some (Exception ("[Errno 2] No such file or directory: '"
                                 +:+ joined p +:+ "'"))
       | Path _ => None
       end).

(** *** The command line of the scaffolder (lines 133-142) *)

(** [choices] and [default] of [--platform], and [default] of [--path]. *)
Definition platform_choices : list string := ["ios"; "macos"; "multiplatform"].
Definition platform_default : string := "macos".
Definition path_default : string := ".".

(** The words given on the command line: the positional [name], and the
    values of [--platform] and [--path] when present. *)
Record CommandLine : Type := mkCommandLine {
  given_name : string;
  given_platform : option string;
  given_path : option string
}.

Record Namespace : Type := mkNamespace {
  arg_name : string;
  arg_platform : string;
  arg_path : string
}.

Section ScaffolderMain.

Variable fspath : pypath -> string.
Variable tr : tree.

(** The usage line and error message that [argparse] writes for a
    rejected value of [--platform]. *)
Variable usage_error : string -> string.

(** [parser.parse_args()]: an option that is absent takes its default; a
    [--platform] outside [choices] is a usage error: the parser writes its
    message to the error stream and ends the process with status 2. *)
Definition parse_args (c : CommandLine) : M site Namespace :=
  match given_platform c with
  | Some p =>
      if bool_decide (p ∈ platform_choices) then
        ret (mkNamespace (given_name c) p (default path_default (given_path c)))
      else
        do* complain (usage_error p) in
        raise (SystemExit 2)
  | None =>
      ret (mkNamespace (given_name c) platform_default
             (default path_default (given_path c)))
  end.

Definition main (c : CommandLine) : M site unit :=
  let* args := parse_args c in
  do* create_swiftui_app_structure fspath tr
        (arg_name args) (arg_platform args) (arg_path args) in
  ret tt.

End ScaffolderMain.

(** *** [create_xcode_project] (lines 31-46) *)




Section Xcode.

Variable fspath : pypath -> string.
Variable tr : tree.

(** How the launched command ends: a fault of starting it, or its exit
    status; and the text of the [CalledProcessError] for a command and a
    status. *)
Variable package_init : list string -> pypath -> exn + Z.
Variable called_process_error : list string -> Z -> string.



End Xcode.

End Scaffold.

(** ** Vocabulary of the statements *)

Module Run.

Import Validate.

(** The world an outcome leaves behind. *)
Definition final_world {A} (o : outcome world A) : world :=
  match o with
  | Returned _ w => w
  | Raised _ w => w
  end.

(** The first word of a command line is [prog]. *)
Definition runs (prog : string) (cmd : list string) : Prop :=
  head cmd = Some prog.

Section Premises.

Variable h : host.

(** Lines 31-33 succeed: [tmp] is the temporary file, holding [code]. *)
Definition staged (code : string) (w : world) (tmp : string) : Prop :=
  fresh_temp h ".swift" (files w) = inr tmp /\ write_fault h tmp code = None.

(** The files seen by the type-check process. *)
Definition staged_files (code : string) (w : world) (tmp : string)
  : gmap string string :=
  <[tmp := code]> (<[tmp := ""]> (files w)).

(** The type-check process completes with [p], leaving [fs] behind. *)
Definition checked (code : string) (w : world) (tmp : string)
  (p : CompletedProcess) (fs : gmap string string) : Prop :=
  child h (typecheck_cmd tmp) None (staged_files code w tmp) = (inr p, fs).

(** The execution process, started on [fs], ends as [a], leaving [fs']. *)
Definition executed (tmp : string) (fs : gmap string string)
  (a : exn + CompletedProcess) (fs' : gmap string string) : Prop :=
  child h (exec_cmd tmp) (Some 5) fs = (a, fs').

(** [os.unlink(tmp)] succeeds on [fs]. *)
Definition removable (tmp : string) (fs : gmap string string) : Prop :=
  is_Some (fs !! tmp) /\ unlink_fault h tmp fs = None.

(** Where a call of [subprocess.run] under [try:] raises [e]: in the
    type-check (step 2), or in the execution (step 5), which is reached
    only with [run] set and a type-check that exited zero. *)
Inductive step : Type := TypeCheck | Execution.

Inductive raises_at (code : string) (run : bool) (w : world) (tmp : string)
  (e : exn) (fs : gmap string string) : step -> Prop :=
| raises_in_typecheck :
    child h (typecheck_cmd tmp) None (staged_files code w tmp) = (inl e, fs) ->
    raises_at code run w tmp e fs TypeCheck
| raises_in_execution p fs2 :
    checked code w tmp p fs2 ->
    returncode p = 0 ->
    run = true ->
    executed tmp fs2 (inl e) fs ->
    raises_at code run w tmp e fs Execution.

(** The files at the moment the [finally] clause starts: as the last
    process that was run left them. *)
Definition files_at_cleanup (code : string) (run : bool) (w : world)
  (tmp : string) : gmap string string :=
  match child h (typecheck_cmd tmp) None (staged_files code w tmp) with
  | (inr p, fs) =>
      if (returncode p =? 0) && run
      then snd (child h (exec_cmd tmp) (Some 5) fs)
      else fs
  | (inl _, fs) => fs
  end.

(** [os.unlink(tmp)] raises [e] on [fs]: the file is gone, or the host
    refuses the removal. *)
Definition unlink_raises (tmp : string) (fs : gmap string string) (e : exn)
  : Prop :=
  (fs !! tmp = None
   /\ e = Exception ("[Errno 2] No such file or directory: '"
                     +:+ tmp +:+ "'"))
  \/ (is_Some (fs !! tmp) /\ unlink_fault h tmp fs = Some e).

(** No exception comes out of the execution step: it is not reached, or
    it completes in time. *)
Definition execution_clean (code : string) (run : bool) (w : world)
  (tmp : string) : Prop :=
  forall e fs, ~ raises_at code run w tmp e fs Execution.

End Premises.

(** The text of the output after an execution that completed. *)
Definition execution_report (q : CompletedProcess) : string :=
  passed_msg +:+ nl +:+ nl +:+ "--- Execution Output ---" +:+ nl
  +:+ proc_stdout q
  +:+ (if truthy (proc_stderr q)
       then nl +:+ "--- Warnings ---" +:+ nl +:+ proc_stderr q
       else "").

(** The two shapes a [ValidationResult] is said to have. *)
Definition valid_with_output (r : ValidationResult) : Prop :=
  valid r = true /\ output r <> "".
Definition invalid_with_errors (r : ValidationResult) : Prop :=
  valid r = false /\ errors r <> "".
Definition invalid_without_output (r : ValidationResult) : Prop :=
  valid r = false /\ output r = "".
Definition valid_with_output_only (r : ValidationResult) : Prop :=
  valid r = true /\ output r <> "" /\ errors r = "".

(** The two shapes of the dictionary while [validate_swift_code] runs:
    as initialised, or as marked after a type-check that passed. *)
Definition shaped (r : ValidationResult) : Prop :=
  (valid r = true /\ exists rest, output r = passed_msg +:+ rest)
  \/ (valid r = false /\ output r = "").

Definition shaped_out {A} (o : outcome frame A) : Prop :=
  match o with
  | Returned _ fr => shaped (result fr)
  | Raised _ fr => shaped (result fr)
  end.

(** *** Concrete hosts *)

(** A host that names the temporary file [/tmp/tmp0.swift], never fails on
    files, answers the type-check with [check] and the execution with
    [exec], and whose children leave the files alone. *)
Definition scripted (check exec : exn + CompletedProcess) : host :=
  mkHost (fun suffix _ => inr ("/tmp/tmp0" +:+ suffix))
         (fun _ _ => None)
         (fun cmd _ fs =>
            (match cmd with
             | c :: _ => if String.eqb c "swiftc" then check else exec
             | [] => exec
             end, fs))
         (fun _ _ => None)
         (fun _ => None).

Definition tmp0 : string := "/tmp/tmp0.swift".
Definition empty_world : world := mkWorld ∅ [] "" "" "".

Definition clean : CompletedProcess := mkCompleted 0 "" "".

Definition timed_out : exn :=
  TimeoutExpired "Command '['swift', '/tmp/tmp0.swift']' timed out after 5 seconds".

(** Type-check passes, execution never ends in time. *)
Definition looping_host : host := scripted (inr clean) (inl timed_out).

(** Type-check rejects the code with a diagnostic, or the compiler is
    killed before it writes one. *)
Definition rejecting_host : host :=
  scripted (inr (mkCompleted 1 "" "error: cannot convert value")) (inr clean).
Definition silent_rejecting_host : host :=
  scripted (inr (mkCompleted (-9) "" "")) (inr clean).

(** Type-check passes, the program crashes at run time. *)
Definition crashing_host : host :=
  scripted (inr clean)
           (inr (mkCompleted 132 "partial" "Fatal error: index out of range")).

(** No compiler on the path. *)
Definition bare_host : host :=
  scripted (inl (Exception "[Errno 2] No such file or directory: 'swiftc'"))
           (inr clean).

(** No room for a temporary file. *)
Definition full_disk_host : host :=
  mkHost (fun _ _ => inl (Exception "[Errno 28] No space left on device"))
         (fun _ _ => None)
         (fun _ _ fs => (inr clean, fs))
         (fun _ _ => None)
         (fun _ => None).

(** Type-check and execution both succeed. *)
Definition passing_host : host :=
  scripted (inr clean) (inr (mkCompleted 0 "1" "")).

(** Sample inputs. *)
Definition loop_code : string := "while true { }".
Definition bad_code : string := "let x: Int = " +:+ dq +:+ "oops" +:+ dq.
Definition good_code : string := "print(1)".

Definition inline (code : string) (run : bool) : Namespace :=
  mkArgs None run false (Some code).

(** The files once [code] has been written to [tmp0] in the empty world. *)
Definition staged0 (code : string) : gmap string string :=
  <[tmp0 := code]> (<[tmp0 := ""]> ∅).

(** *** The statements of the specification that the code does not meet *)

(** The result a timeout is said to give. *)
Definition downgraded_by_timeout (r : ValidationResult) : Prop :=
  valid r = false /\ errors r = "execution timeout (5s limit)".

(** The invariant a result is said to satisfy: exactly one of the two
    populated shapes, and never content in both texts. *)
Definition exactly_one_populated (r : ValidationResult) : Prop :=
  ((valid_with_output r /\ ~ invalid_with_errors r)
   \/ (~ valid_with_output r /\ invalid_with_errors r))
  /\ ~ (output r <> "" /\ errors r <> "").

(** *** Further hosts and inputs *)

(** The disk fills up during the write, after the first five characters. *)
Definition unwritable_host : host :=
  mkHost (fun suffix _ => inr ("/tmp/tmp0" +:+ suffix))
         (fun _ _ =>
            Some (Exception "[Errno 28] No space left on device", "print"))
         (fun _ _ fs => (inr clean, fs))
         (fun _ _ => None)
         (fun _ => None).

(** The executed program removes its own source file. *)
Definition self_deleting_host : host :=
  mkHost (fun suffix _ => inr ("/tmp/tmp0" +:+ suffix))
         (fun _ _ => None)
         (fun cmd _ fs =>
            match cmd with
            | c :: _ =>
                if String.eqb c "swiftc" then (inr clean, fs)
                else (inr clean, delete tmp0 fs)
            | [] => (inr clean, fs)
            end)
         (fun _ _ => None)
         (fun _ => None).

(** The user interrupts the type-check. *)
Definition interrupted_host : host :=
  scripted (inl KeyboardInterrupt) (inr clean).

(** A world with one source file on disk and some text on standard input. *)
Definition desk : world :=
  mkWorld {["main.swift" := good_code]} [] loop_code "" "".

(** Children of the host leave the files as they found them. *)
Definition quiet_children (h : host) : Prop :=
  forall cmd timeout fs, snd (child h cmd timeout fs) = fs.


(** The state an outcome leaves behind, for any state. *)
Definition final_state {S A} (o : outcome S A) : S :=
  match o with
  | Returned _ s => s
  | Raised _ s => s
  end.

End Run.

(** * Properties *)

(** ** Text *)

Section TextFacts.

Lemma append_nil_r (s : string) : s +:+ "" = s.
Proof.
  induction s as [|c s IH]; [reflexivity|].
  change (String c (s +:+ "") = String c s). now rewrite IH.
Qed.

Lemma append_assoc (a b c : string) : (a +:+ b) +:+ c = a +:+ (b +:+ c).
Proof.
  induction a as [|x a IH]; [reflexivity|].
  change (String x ((a +:+ b) +:+ c) = String x (a +:+ (b +:+ c))).
  now rewrite IH.
Qed.

Lemma startswith_app (p s : string) : startswith p (p +:+ s) = true.
Proof.
  induction p as [|c p IH]; [reflexivity|].
  change (startswith (String c p) (String c (p +:+ s)) = true).
  cbn [startswith]. now rewrite Ascii.eqb_refl.
Qed.

Lemma startswith_split (p s : string) :
  startswith p s = true -> exists t, s = p +:+ t.
Proof.
  revert s. induction p as [|c p IH]; intros s H.
  - now exists s.
  - destruct s as [|d s]; [discriminate|].
    cbn [startswith] in H.
    destruct (Ascii.eqb_spec c d) as [->|]; [|discriminate].
    destruct (IH _ H) as [t ->]. now exists t.
Qed.

(** Python's [in] finds exactly the occurrences. *)
Lemma str_in_occurs (needle hay : string) :
  str_in needle hay = true <-> occurs needle hay.
Proof.
  split.
  - induction hay as [|c hay IH]; cbn [str_in]; intros H.
    + rewrite orb_false_r in H.
      destruct (startswith_split _ _ H) as [t ->]. now exists "", t.
    + apply orb_true_iff in H as [H|H].
      * destruct (startswith_split _ _ H) as [t ->]. now exists "", t.
      * destruct (IH H) as (pre & post & ->). now exists (String c pre), post.
  - intros (pre & post & ->).
    induction pre as [|c pre IH].
    + change ("" +:+ needle +:+ post) with (needle +:+ post).
      destruct (needle +:+ post) eqn:E; cbn [str_in];
        rewrite <- E, startswith_app; reflexivity.
    + change (str_in needle (String c (pre +:+ needle +:+ post)) = true).
      cbn [str_in]. rewrite IH. apply orb_true_r.
Qed.

Lemma occurs_middle (pre needle post : string) :
  occurs needle (pre +:+ needle +:+ post).
Proof. now exists pre, post. Qed.

Lemma occurs_refl (needle : string) : occurs needle needle.
Proof. exists "", "". now rewrite append_nil_r. Qed.

Lemma occurs_app_l (needle a b : string) :
  occurs needle b -> occurs needle (a +:+ b).
Proof.
  intros (pre & post & ->). exists (a +:+ pre), post.
  now rewrite append_assoc.
Qed.

Lemma occurs_app_r (needle a b : string) :
  occurs needle a -> occurs needle (a +:+ b).
Proof.
  intros (pre & post & ->). exists pre, (post +:+ b).
  now rewrite !append_assoc.
Qed.

End TextFacts.

(** ** The validator, path by path *)

Section ValidatorPaths.

Import Validate Run.

Ltac advance :=
  cbn [files spawned stdin stdout stderr set_files log_spawn outside result
       valid output errors negb returncode proc_stdout proc_stderr] in *.

Ltac open_validate :=
  cbv [validate_swift_code acquire guarded try_finally try_except try_block except_clauses
       bind ret get modify raise in_world on_result set_valid set_output
       add_output set_errors NamedTemporaryFile file_write subprocess_run
       os_unlink staged checked executed removable staged_files] in *;
  advance.

Variable h : host.

(** Faults of step 1 are raised before the [try:] and reach the caller. *)
Lemma acquire_fault_propagates code run w e :
  fresh_temp h ".swift" (files w) = inl e ->
  validate_swift_code h code run w = Raised e w.
Proof. intros H. open_validate. now rewrite H. Qed.

Lemma write_fault_propagates code run w tmp e part :
  fresh_temp h ".swift" (files w) = inr tmp ->
  write_fault h tmp code = Some (e, part) ->
  validate_swift_code h code run w
  = Raised e (set_files (fun fs => <[tmp := part]> (<[tmp := ""]> fs)) w).
Proof. intros H1 H2. open_validate. now rewrite H1, H2. Qed.

(** C5: a rejected type-check gives an invalid result carrying the
    captured standard error, and [swiftc] is the only process started,
    whatever [run] is. *)
Theorem rejected_code_is_invalid_and_not_run code run w tmp p fs :
  staged h code w tmp ->
  checked h code w tmp p fs ->
  returncode p <> 0 ->
  spawned (final_world (validate_swift_code h code run w))
    = (spawned w ++ [typecheck_cmd tmp])%list
  /\ (removable h tmp fs ->
      validate_swift_code h code run w
      = Returned (mkResult false "" (proc_stderr p))
          (mkWorld (delete tmp fs) (spawned w ++ [typecheck_cmd tmp])
                   (stdin w) (stdout w) (stderr w))).
Proof.
  intros [Hn Hw] Hc Hrc. apply Z.eqb_neq in Hrc.
  open_validate. rewrite Hn, Hw. advance. rewrite Hc, Hrc. advance.
  split.
  - destruct (fs !! tmp); [destruct (unlink_fault h tmp fs)|]; reflexivity.
  - intros [[x Hx] Hu]. now rewrite Hx, Hu.
Qed.

(** C9: once the type-check has passed and the execution has completed,
    the result is valid whatever the exit status of the execution; its
    standard output, and its standard error under a warnings heading when
    there is any, go to [output], and [errors] stays empty. *)
Theorem completed_execution_is_valid code w tmp p fs q fs' :
  staged h code w tmp ->
  checked h code w tmp p fs ->
  returncode p = 0 ->
  executed h tmp fs (inr q) fs' ->
  removable h tmp fs' ->
  validate_swift_code h code true w
  = Returned (mkResult true (execution_report q) "")
      (mkWorld (delete tmp fs')
               (spawned w ++ [typecheck_cmd tmp; exec_cmd tmp])
               (stdin w) (stdout w) (stderr w)).
Proof.
  intros [Hn Hw] Hc Hrc He [[x Hx] Hu].
  open_validate. rewrite Hn, Hw. advance. rewrite Hc, Hrc. change (0 =? 0) with true. advance.
  rewrite He. unfold execution_report.
  destruct (truthy (proc_stderr q)); advance; rewrite Hx, Hu;
    cbv [set_files log_spawn]; advance; rewrite <- app_assoc; cbn [app].
  - now rewrite !append_assoc.
  - now rewrite append_nil_r.
Qed.

(** C1, as the code has it: after a type-check that passed, an execution
    that runs into the timeout leaves the type-check message in [output]
    and puts the timeout message, spelt [Execution timeout (5s limit)],
    in [errors]. *)
Theorem timeout_is_reported_in_errors code w tmp p fs m fs' :
  staged h code w tmp ->
  checked h code w tmp p fs ->
  returncode p = 0 ->
  executed h tmp fs (inl (TimeoutExpired m)) fs' ->
  removable h tmp fs' ->
  exists r w',
    validate_swift_code h code true w = Returned r w'
    /\ errors r = "Execution timeout (5s limit)"
    /\ output r = passed_msg
    /\ files w' = delete tmp fs'.
Proof.
  intros [Hn Hw] Hc Hrc He [[x Hx] Hu].
  open_validate. rewrite Hn, Hw. advance. rewrite Hc, Hrc. change (0 =? 0) with true. advance.
  rewrite He. advance. rewrite Hx, Hu. advance.
  eexists _, _. repeat split.
Qed.

(** An [Exception] other than the timeout raised by one of the two
    process invocations is caught and its message is returned in [errors]
    behind [Validation error: ]; when the type-check invocation raised it,
    the result is invalid with an empty [output]. *)
Lemma process_fault_is_reported code run w tmp msg fs st :
  staged h code w tmp ->
  raises_at h code run w tmp (Exception msg) fs st ->
  removable h tmp fs ->
  exists r w',
    validate_swift_code h code run w = Returned r w'
    /\ errors r = "Validation error: " +:+ msg
    /\ files w' = delete tmp fs
    /\ (st = TypeCheck -> valid r = false /\ output r = "").
Proof.
  intros [Hn Hw] Hr [[x Hx] Hu].
  destruct Hr as [Hc | p fs2 Hc Hrc -> He];
    open_validate; rewrite Hn, Hw; advance; rewrite Hc; advance.
  - rewrite Hx, Hu. advance. eexists _, _. repeat split.
  - rewrite Hrc. change (0 =? 0) with true. advance. rewrite He. advance. rewrite Hx, Hu. advance.
    eexists _, _. repeat split; discriminate.
Qed.

End ValidatorPaths.

(** ** The validator, on every path *)

Section ControlFacts.

Context {S A : Type}.

(** A [try ... finally] that returns has run both parts to their end. *)
Lemma try_finally_returned (body : M S A) (fin : M S unit) s a s'' :
  try_finally body fin s = Returned a s'' ->
  exists s', body s = Returned a s' /\ fin s' = Returned tt s''.
Proof.
  unfold try_finally. destruct (body s) as [b s'|e s'].
  - destruct (fin s') as [[] t|e t] eqn:F; [|discriminate].
    intros [= <- <-]. now exists s'.
  - destruct (fin s'); discriminate.
Qed.

(** A [try ... except] that returns did so from the body or a handler. *)
Lemma try_except_returned (body : M S A) handler s a s' :
  try_except body handler s = Returned a s' ->
  body s = Returned a s'
  \/ exists e s1 k, body s = Raised e s1 /\ handler e = Some k
                    /\ k s1 = Returned a s'.
Proof.
  unfold try_except. destruct (body s) as [b t|e t].
  - intros [= <- <-]. now left.
  - destruct (handler e) as [k|] eqn:K; [|discriminate].
    intros H. right. now exists e, t, k.
Qed.

End ControlFacts.

Section ValidatorInvariants.

Import Validate Run.

Variable h : host.

(** After a successful [os.unlink] the path is gone. *)
Lemma os_unlink_returned path w w' :
  os_unlink h path w = Returned tt w' -> files w' !! path = None.
Proof.
  unfold os_unlink. destruct (files w !! path); [|discriminate].
  destruct (unlink_fault h path (files w)); [discriminate|].
  intros [= <-]. apply lookup_delete_eq.
Qed.

Lemma in_world_returned {A} (m : M world A) fr a fr' :
  in_world m fr = Returned a fr' ->
  m (outside fr) = Returned a (outside fr') /\ result fr' = result fr.
Proof.
  unfold in_world. destruct (m (outside fr)); [|discriminate].
  now intros [= <- <-].
Qed.

Lemma acquire_returned code w tmp w1 :
  acquire h code w = Returned tmp w1 ->
  fresh_temp h ".swift" (files w) = inr tmp.
Proof.
  unfold acquire, bind, NamedTemporaryFile, file_write, ret.
  destruct (fresh_temp h ".swift" (files w)) as [e|name]; [discriminate|].
  destruct (write_fault h name code) as [[? ?]|]; [discriminate|].
  now intros [= <- _].
Qed.

Lemma shaped_passed rest (e : string) : shaped (mkResult true (passed_msg +:+ rest) e).
Proof. left. split; [reflexivity|]. now exists rest. Qed.

Lemma try_block_shaped tmp run w :
  shaped_out (try_block h tmp run (mkFrame w (mkResult false "" ""))).
Proof.
  cbv [try_block bind in_world subprocess_run ret get on_result set_errors
       set_valid set_output add_output modify].
  cbn [outside result valid output errors].
  destruct (child h (typecheck_cmd tmp) None (files w)) as [[e|p] fs];
    cbn [shaped_out result]; [now right|].
  destruct (negb (returncode p =? 0)); cbn [shaped_out result]; [now right|].
  destruct run; cbn [outside result valid output errors shaped_out].
  2: { rewrite <- (append_nil_r passed_msg). apply shaped_passed. }
  destruct (child h (exec_cmd tmp) (Some 5) _) as [[e|q] fs'];
    cbn [outside result valid output errors shaped_out].
  - rewrite <- (append_nil_r passed_msg). apply shaped_passed.
  - destruct (truthy (proc_stderr q));
      cbn [outside result valid output errors shaped_out];
      rewrite ?append_assoc; apply shaped_passed.
Qed.

(** A value returned from inside the block is the dictionary itself. *)
Lemma try_block_value tmp run fr r fr' :
  try_block h tmp run fr = Returned (Some r) fr' -> r = result fr'.
Proof.
  cbv [try_block bind in_world subprocess_run ret get on_result set_errors
       set_valid set_output add_output modify].
  destruct (child h (typecheck_cmd tmp) None _) as [[e|p] fs]; [discriminate|].
  destruct (negb (returncode p =? 0)); [now intros [= <- <-]|].
  destruct run; [|discriminate].
  destruct (child h (exec_cmd tmp) (Some 5) _) as [[e|q] fs']; [discriminate|].
  destruct (truthy (proc_stderr q)); discriminate.
Qed.

Lemma handled_shaped tmp run w :
  shaped_out (try_except (try_block h tmp run) except_clauses
                (mkFrame w (mkResult false "" ""))).
Proof.
  pose proof (try_block_shaped tmp run w) as Hs.
  unfold try_except.
  destruct (try_block h tmp run _) as [o fr|e fr]; [exact Hs|].
  cbn [shaped_out] in Hs.
  destruct e; cbn [except_clauses shaped_out]; try exact Hs;
    cbv [bind set_errors on_result modify ret];
    cbn [shaped_out result outside]; exact Hs.
Qed.

Lemma handled_value tmp run fr r fr' :
  try_except (try_block h tmp run) except_clauses fr = Returned (Some r) fr' ->
  r = result fr'.
Proof.
  intros H. apply try_except_returned in H as [H|(e & s1 & k & _ & K & H)].
  - eapply try_block_value, H.
  - destruct e; cbn [except_clauses] in K; try discriminate;
      injection K as <-; cbv [bind set_errors on_result modify ret] in H;
      discriminate.
Qed.

(** Every returned result: the file it was checked in, and its shape. *)
Lemma returned_inv code run w r w' :
  validate_swift_code h code run w = Returned r w' ->
  exists tmp,
    fresh_temp h ".swift" (files w) = inr tmp
    /\ files w' !! tmp = None
    /\ shaped r.
Proof.
  unfold validate_swift_code.
  destruct (acquire h code w) as [tmp w1|] eqn:Ha; [|discriminate].
  destruct (guarded h tmp run _) as [o fr|] eqn:Hg; [|discriminate].
  intros Hr. exists tmp. split; [eapply acquire_returned, Ha|].
  unfold guarded in Hg. apply try_finally_returned in Hg as (fr1 & Hb & Hf).
  apply in_world_returned in Hf as [Hu Hres].
  apply os_unlink_returned in Hu.
  pose proof (handled_shaped tmp run w1) as Hs. rewrite Hb in Hs.
  cbn [shaped_out] in Hs. rewrite <- Hres in Hs.
  destruct o as [r0|].
  - apply handled_value in Hb. injection Hr as <- <-.
    split; [exact Hu|]. subst r0. now rewrite <- Hres.
  - injection Hr as <- <-. now split.
Qed.

End ValidatorInvariants.

Section ValidatorStatements.

Import Validate Run.

Variable h : host.

(** Without [run], the type-checker is the only process ever started. *)
Lemma typecheck_only code w :
  exists started,
    spawned (final_world (validate_swift_code h code false w))
      = (spawned w ++ started)%list
    /\ Forall (runs "swiftc") started.
Proof.
  cbv [validate_swift_code acquire guarded try_finally try_except try_block
       except_clauses bind ret get modify raise in_world on_result set_valid set_output
       add_output set_errors NamedTemporaryFile file_write subprocess_run
       os_unlink].
  destruct (fresh_temp h ".swift" (files w)) as [e|tmp];
    [exists []; split; [symmetry; apply app_nil_r|constructor]|].
  destruct (write_fault h tmp code) as [[? ?]|];
    [exists []; split; [symmetry; apply app_nil_r|constructor]|].
  cbn [files spawned set_files log_spawn outside].
  exists [typecheck_cmd tmp].
  split; [|repeat constructor].
  destruct (child h (typecheck_cmd tmp) None _) as [[e|p] fs].
  - destruct e; cbn [files spawned set_files log_spawn outside];
      (destruct (fs !! tmp); [destruct (unlink_fault h tmp fs)|]); reflexivity.
  - destruct (negb (returncode p =? 0));
      cbn [files spawned set_files log_spawn outside];
      (destruct (fs !! tmp); [destruct (unlink_fault h tmp fs)|]); reflexivity.
Qed.

(** C6: validating a view fragment is validating, without execution, the
    fragment between the fixed import line and the fixed app declaration
    that names [ContentView]; only the type-checker is ever started. *)
Theorem view_is_wrapped_and_never_run view_code w :
  validate_swiftui_view h view_code w
  = validate_swift_code h (wrapper_head +:+ view_code +:+ wrapper_tail) false w
  /\ occurs "import SwiftUI" wrapper_head
  /\ occurs "ContentView()" wrapper_tail
  /\ exists started,
       spawned (final_world (validate_swiftui_view h view_code w))
         = (spawned w ++ started)%list
       /\ Forall (runs "swiftc") started.
Proof.
  split; [reflexivity|].
  split; [apply str_in_occurs; vm_compute; reflexivity|].
  split; [apply str_in_occurs; vm_compute; reflexivity|].
  apply typecheck_only.
Qed.

(** C7: once the validation has produced a result, the process ends with
    status 0 and the report on standard output when the result is valid,
    and with status 1 and the diagnostic on standard error when it is
    not. *)
Theorem exit_status_follows_valid args w r w1 :
  bind (read_code h args) (dispatch h args) w = Returned r w1 ->
  script h args w
  = if valid r
    then (0, to_stdout (("✅ VALID" +:+ nl +:+ output r) +:+ nl) w1)
    else (1, to_stderr (("❌ INVALID" +:+ nl +:+ errors r) +:+ nl) w1).
Proof.
  unfold script, main, bind.
  destruct (read_code h args w) as [code w0|]; [|discriminate].
  intros ->. unfold report. now destruct (valid r).
Qed.

End ValidatorStatements.

(** ** The scaffolder *)

Section ScaffolderStatements.

Import Scaffold Run.

Variable fspath : pypath -> string.
Variable tr : tree.

Lemma lookup_template_known platform t (s : site) :
  TEMPLATES !! platform = Some t ->
  lookup_template platform s = Returned t s.
Proof.
  intros H. unfold lookup_template, bind, getitem, dict_get.
  change (TEMPLATES !! "ios") with (Some ios_template).
  cbn [ret]. now rewrite H.
Qed.

Lemma lookup_template_unknown platform (s : site) :
  TEMPLATES !! platform = None ->
  lookup_template platform s = Returned ios_template s.
Proof.
  intros H. unfold lookup_template, bind, getitem, dict_get.
  change (TEMPLATES !! "ios") with (Some ios_template).
  cbn [ret]. now rewrite H.
Qed.

Lemma In_take {A} (x : A) n l : In x (take n l) -> In x l.
Proof.
  revert n. induction l as [|a l IH]; intros [|n]; cbn; try tauto.
  intros [->|H]; [now left|right; eauto].
Qed.

(** The ways a run can end: with all six operations and the six lines, or
    at the first operation the tree refuses, with the operations before it
    and nothing printed. *)
Ltac stop n :=
  right; eexists _, _, n; split; [reflexivity|];
  cbn [ops terminal err_terminal]; rewrite <- ?app_assoc; repeat split.

Lemma create_cases name platform path (s : site) :
  (exists s',
      create_swiftui_app_structure fspath tr name platform path s
      = Returned (Div (Path path) name) s'
      /\ ops s' = (ops s ++ layout name path
                             (dict_get TEMPLATES platform ios_template))%list
      /\ terminal s'
         = said (epilogue fspath name path
                   (dict_get TEMPLATES platform ios_template)) (terminal s)
      /\ err_terminal s' = err_terminal s)
  \/ (exists e s' n,
         create_swiftui_app_structure fspath tr name platform path s
         = Raised e s'
         /\ ops s' = (ops s ++ take n (layout name path
                                         (dict_get TEMPLATES platform
                                            ios_template)))%list
         /\ terminal s' = terminal s
         /\ err_terminal s' = err_terminal s).
Proof.
  unfold create_swiftui_app_structure, lookup_template, getitem.
  change (TEMPLATES !! "ios") with (Some ios_template).
  cbv [bind mkdir write_text say modify ret andb].
  cbn [ops terminal err_terminal].
  destruct (dir_fault tr _ false true _) as [e|]; [stop 1%nat|].
  cbn [ops terminal err_terminal].
  destruct (file_fault tr _ _ _) as [e|]; [stop 2%nat|].
  cbn [ops terminal err_terminal].
  destruct (dir_fault tr _ false true _) as [e|]; [stop 3%nat|].
  cbn [ops terminal err_terminal].
  destruct (file_fault tr _ _ _) as [e|]; [stop 4%nat|].
  cbn [ops terminal err_terminal].
  destruct (file_fault tr _ _ _) as [e|]; [stop 5%nat|].
  cbn [ops terminal err_terminal].
  left. eexists. split; [reflexivity|]. cbn [ops terminal err_terminal].
  rewrite <- !app_assoc. repeat split.
Qed.

Lemma layout_manifest name path t text :
  In (WriteText (Div (Div (Path path) name) "Package.swift") text)
     (layout name path t) ->
  text = package_swift name t.
Proof.
  unfold layout. cbn [In].
  intros [H|[H|[H|[H|[H|[H|[]]]]]]]; simplify_eq; reflexivity.
Qed.

Lemma said_platform name path t before :
  occurs ("   Platform: " +:+ platforms t +:+ nl)
         (said (epilogue fspath name path t) before).
Proof.
  unfold said, epilogue. cbn [fold_left].
  do 4 apply occurs_app_r. apply occurs_app_l.
  rewrite append_assoc. apply occurs_refl.
Qed.

(** Whatever the way out, a manifest written by the run is the one of the
    template looked up; and a run that returns has written it and has
    shown the platform of that template. *)
Lemma manifest_of_run name platform path (s : site) :
  (forall text,
      In (WriteText (Div (Div (Path path) name) "Package.swift") text)
         (ops (final_state
                 (create_swiftui_app_structure fspath tr name platform path
                    s))) ->
      In (WriteText (Div (Div (Path path) name) "Package.swift") text) (ops s)
      \/ text = package_swift name (dict_get TEMPLATES platform ios_template))
  /\ (forall s',
         create_swiftui_app_structure fspath tr name platform path s
         = Returned (Div (Path path) name) s' ->
         In (WriteText (Div (Div (Path path) name) "Package.swift")
               (package_swift name (dict_get TEMPLATES platform ios_template)))
            (ops s')
         /\ occurs ("   Platform: "
                    +:+ platforms (dict_get TEMPLATES platform ios_template)
                    +:+ nl)
                   (terminal s')).
Proof.
  destruct (create_cases name platform path s)
    as [(s1 & Hc & Ho & Ht & _)|(e & s1 & n & Hc & Ho & _)];
    rewrite Hc; cbn [final_state]; split.
  - intros text H. rewrite Ho in H. apply in_app_or in H as [H|H];
      [now left|right]. now apply layout_manifest with path.
  - intros s' [= <-]. rewrite Ho, Ht. split; [|apply said_platform].
    apply in_or_app. right. unfold layout. cbn [In]. tauto.
  - intros text H. rewrite Ho in H. apply in_app_or in H as [H|H];
      [now left|right]. apply In_take in H. now apply layout_manifest with path.
  - intros s' [=].
Qed.

(** C8: a platform key that is not in [TEMPLATES] resolves to the [ios]
    record, whose platform string [iOS] is in the manifest rendered from
    it; a manifest the run writes is that one, and a run that returns
    has written it and shows [Platform: iOS] on the terminal. *)
Theorem unknown_platform_falls_back_to_ios name platform path (s : site) :
  TEMPLATES !! platform = None ->
  lookup_template platform s = Returned ios_template s
  /\ occurs (platforms ios_template) (package_swift name ios_template)
  /\ (forall text,
         In (WriteText (Div (Div (Path path) name) "Package.swift") text)
            (ops (final_state
                    (create_swiftui_app_structure fspath tr name platform
                       path s))) ->
         In (WriteText (Div (Div (Path path) name) "Package.swift") text)
            (ops s)
         \/ text = package_swift name ios_template)
  /\ (forall s',
         create_swiftui_app_structure fspath tr name platform path s
         = Returned (Div (Path path) name) s' ->
         In (WriteText (Div (Div (Path path) name) "Package.swift")
               (package_swift name ios_template)) (ops s')
         /\ occurs ("   Platform: " +:+ platforms ios_template +:+ nl)
                   (terminal s')).
Proof.
  intros H. split; [now apply lookup_template_unknown|]. split.
  - unfold package_swift.
    change (ios_entry ios_template) with ("." +:+ "iOS" +:+ "(.v17)").
    change (platforms ios_template) with "iOS".
    do 16 apply occurs_app_l. apply occurs_app_r.
    apply occurs_app_l, occurs_app_r, occurs_refl.
  - pose proof (manifest_of_run name platform path s) as M.
    unfold dict_get in M. rewrite H in M. exact M.
Qed.

(** C10: for [multiplatform] the manifest lists [.iOS(.v17)] and
    [.macOS(.v14)] in the [platforms] list with blanks only in between,
    so without a comma; a manifest the run writes is that text, and a run
    that returns has written it. *)
Theorem multiplatform_entries_lack_comma name path (s : site) :
  (exists gap before after,
      package_swift name multiplatform_template
      = (before +:+ "    platforms: [" +:+ nl +:+ "        ")
        +:+ ".iOS(.v17)" +:+ gap +:+ ".macOS(.v14)"
        +:+ (nl +:+ "    ]," +:+ after)
      /\ all_space gap = true
      /\ has_char "," gap = false)
  /\ (forall text,
         In (WriteText (Div (Div (Path path) name) "Package.swift") text)
            (ops (final_state
                    (create_swiftui_app_structure fspath tr name
                       "multiplatform" path s))) ->
         In (WriteText (Div (Div (Path path) name) "Package.swift") text)
            (ops s)
         \/ text = package_swift name multiplatform_template)
  /\ (forall s',
         create_swiftui_app_structure fspath tr name "multiplatform" path s
         = Returned (Div (Path path) name) s' ->
         In (WriteText (Div (Div (Path path) name) "Package.swift")
               (package_swift name multiplatform_template)) (ops s')).
Proof.
  split; [|split].
  - exists (nl +:+ "        "),
      ("// swift-tools-version: 5.9" +:+ nl +:+
       "import PackageDescription" +:+ nl +:+
       nl +:+
       "let package = Package(" +:+ nl +:+
       "    name: " +:+ dq +:+ name +:+ dq +:+ "," +:+ nl),
      (nl +:+
       "    products: [" +:+ nl +:+
       "        .executable(name: " +:+ dq +:+ name +:+ dq +:+ ", targets: ["
         +:+ dq +:+ name +:+ dq +:+ "])" +:+ nl +:+
       "    ]," +:+ nl +:+
       "    targets: [" +:+ nl +:+
       "        .executableTarget(name: " +:+ dq +:+ name +:+ dq +:+ ")"
         +:+ nl +:+
       "    ]" +:+ nl +:+
       ")" +:+ nl).
    split; [|split; reflexivity].
    unfold package_swift.
    change (ios_entry multiplatform_template) with ".iOS(.v17)".
    change (macos_entry multiplatform_template) with ".macOS(.v14)".
    rewrite !append_assoc. reflexivity.
  - exact (proj1 (manifest_of_run name "multiplatform" path s)).
  - intros s' H.
    exact (proj1 (proj2 (manifest_of_run name "multiplatform" path s) s' H)).
Qed.

End ScaffolderStatements.

(** ** The statements at concrete inputs *)

Section Instances.

Import Validate Run Scaffold.

(** C1: with a type-check that passes and an execution that never ends,
    the result keeps [valid = true] and its [errors] text begins with a
    capital letter; it is not the result the statement describes. *)
Lemma timeout_result_is_not_downgraded :
  staged looping_host loop_code empty_world tmp0
  /\ checked looping_host loop_code empty_world tmp0 clean (staged0 loop_code)
  /\ returncode clean = 0
  /\ executed looping_host tmp0 (staged0 loop_code) (inl timed_out)
       (staged0 loop_code)
  /\ exists w',
       validate_swift_code looping_host loop_code true empty_world
       = Returned (mkResult true passed_msg "Execution timeout (5s limit)") w'
       /\ ~ downgraded_by_timeout
            (mkResult true passed_msg "Execution timeout (5s limit)").
Proof.
  repeat split.
  eexists. split; [vm_compute; reflexivity|].
  intros [H _]. discriminate H.
Qed.

Lemma timeout_is_reported_in_errors_witness :
  exists r w',
    validate_swift_code looping_host loop_code true empty_world = Returned r w'
    /\ errors r = "Execution timeout (5s limit)"
    /\ output r = passed_msg
    /\ files w' = delete tmp0 (staged0 loop_code).
Proof.
  apply (timeout_is_reported_in_errors looping_host loop_code empty_world tmp0
           clean (staged0 loop_code)
           "Command '['swift', '/tmp/tmp0.swift']' timed out after 5 seconds"
           (staged0 loop_code)).
  - split; reflexivity.
  - reflexivity.
  - reflexivity.
  - reflexivity.
  - split; [exists loop_code; vm_compute; reflexivity | reflexivity].
Defined.

(** C2: a fault of [tempfile] is raised before the [try:] and leaves
    [validate_swift_code] as an exception. *)
Lemma acquire_fault_escapes :
  validate_swift_code full_disk_host good_code false empty_world
  = Raised (Exception "[Errno 28] No space left on device") empty_world.
Proof. reflexivity. Qed.

(** C4: a compiler that dies without a diagnostic gives a result that is
    invalid with empty [errors], neither of the two populated shapes. *)
Lemma silent_rejection_has_neither_shape :
  exists w',
    validate_swift_code silent_rejecting_host bad_code false empty_world
    = Returned (mkResult false "" "") w'
    /\ ~ exactly_one_populated (mkResult false "" "").
Proof.
  eexists. split; [vm_compute; reflexivity|].
  intros [[[[H _] _]|[_ [_ H]]] _].
  - discriminate H.
  - now apply H.
Qed.

Lemma rejected_code_is_invalid_and_not_run_witness :
  spawned (final_world
             (validate_swift_code rejecting_host bad_code true empty_world))
  = ([] ++ [typecheck_cmd tmp0])%list
  /\ validate_swift_code rejecting_host bad_code true empty_world
     = Returned (mkResult false "" "error: cannot convert value")
         (mkWorld (delete tmp0 (staged0 bad_code))
                  ([] ++ [typecheck_cmd tmp0]) "" "" "").
Proof.
  destruct (rejected_code_is_invalid_and_not_run rejecting_host bad_code true
              empty_world tmp0
              (mkCompleted 1 "" "error: cannot convert value")
              (staged0 bad_code)) as [H1 H2].
  - split; reflexivity.
  - reflexivity.
  - discriminate.
  - split; [exact H1|]. apply H2.
    split; [exists bad_code; vm_compute; reflexivity | reflexivity].
Defined.

Lemma exit_status_follows_valid_witness :
  script rejecting_host (inline bad_code true) empty_world
  = (1, to_stderr (("❌ INVALID" +:+ nl +:+ "error: cannot convert value")
                   +:+ nl)
          (mkWorld ∅ [typecheck_cmd tmp0] "" "" "")).
Proof.
  apply (exit_status_follows_valid rejecting_host (inline bad_code true)
           empty_world (mkResult false "" "error: cannot convert value")).
  vm_compute. reflexivity.
Defined.

Lemma completed_execution_is_valid_witness :
  validate_swift_code crashing_host good_code true empty_world
  = Returned
      (mkResult true
         (execution_report
            (mkCompleted 132 "partial" "Fatal error: index out of range")) "")
      (mkWorld (delete tmp0 (staged0 good_code))
               ([] ++ [typecheck_cmd tmp0; exec_cmd tmp0]) "" "" "").
Proof.
  apply (completed_execution_is_valid crashing_host good_code empty_world tmp0
           clean (staged0 good_code)).
  - split; reflexivity.
  - reflexivity.
  - reflexivity.
  - reflexivity.
  - split; [exists good_code; vm_compute; reflexivity | reflexivity].
Defined.


End Instances.

(** * Further properties *)

(** ** The validator on all its ways out *)

Section ValidatorOutcomes.

Import Validate Run.

Variable h : host.

Ltac tidy :=
  cbn [files spawned stdin stdout stderr set_files log_spawn outside result
       valid output errors final_world negb returncode proc_stdout
       proc_stderr fst snd].

(** Every answer of the host and every test of the script, in turn. *)
Ltac explore :=
  cbv [validate_swift_code acquire guarded try_finally try_except try_block
       except_clauses bind ret get modify raise in_world on_result set_valid
       set_output add_output set_errors NamedTemporaryFile file_write
       subprocess_run os_unlink];
  tidy;
  repeat (match goal with
          | |- context [fresh_temp h ?a ?b] =>
              destruct (fresh_temp h a b) as [?|?] eqn:?
          | |- context [write_fault h ?a ?b] =>
              destruct (write_fault h a b) as [[? ?]|] eqn:?
          | |- context [child h ?a ?b ?c] =>
              destruct (child h a b c) as [[?|?] ?] eqn:?
          | |- context [Z.eqb (returncode ?p) 0] =>
              destruct (Z.eqb_spec (returncode p) 0)
          | |- context [match ?e with TimeoutExpired _ => _ | _ => _ end] =>
              destruct e
          | |- context [truthy ?s] => destruct (truthy s) eqn:?
          | |- context [unlink_fault h ?a ?b] =>
              destruct (b !! a) eqn:?; [destruct (unlink_fault h a b) eqn:?|]
          | |- context [if ?b then _ else _] => is_var b; destruct b
          end; tidy).

(** X4: validating writes nothing to the standard output or the error
    stream of the script, on any way out: the function prints nothing and
    the output of the children is captured. *)
Theorem validate_prints_nothing code run w :
  stdout (final_world (validate_swift_code h code run w)) = stdout w
  /\ stderr (final_world (validate_swift_code h code run w)) = stderr w.
Proof. explore; split; reflexivity. Qed.

(** X3: at most two processes are started, the type-checker first; the
    execution follows only when [run] is set and the type-check exited
    zero. *)
Theorem processes_started_in_order code run w :
  exists started,
    spawned (final_world (validate_swift_code h code run w))
      = (spawned w ++ started)%list
    /\ (started = []
        \/ exists tmp,
             fresh_temp h ".swift" (files w) = inr tmp
             /\ (started = [typecheck_cmd tmp]
                 \/ (started = [typecheck_cmd tmp; exec_cmd tmp]
                     /\ run = true
                     /\ exists p fs,
                          checked h code w tmp p fs /\ returncode p = 0))).
Proof.
  explore; rewrite <- ?app_assoc; cbn [app].
  all: first
    [ exists []; split; [symmetry; apply app_nil_r | now left]
    | eexists; split; [reflexivity|]; right; eexists; split; [reflexivity|];
      first [ now left
            | right; split; [reflexivity|]; split; [reflexivity|];
              eexists _, _; split; [eassumption|assumption] ] ].
Qed.

Lemma valid_flag_table code run w :
  match validate_swift_code h code run w with
  | Returned r _ =>
      exists tmp,
        fresh_temp h ".swift" (files w) = inr tmp
        /\ (valid r = true
            <-> exists p fs, checked h code w tmp p fs /\ returncode p = 0)
  | Raised _ _ => True
  end.
Proof.
  explore; try exact I.
  all: eexists; (split; [reflexivity|]); unfold checked, staged_files.
  all: match goal with
       | H : child h (typecheck_cmd _) None _ = _ |- _ => rewrite H
       end.
  all: split;
    [ first [ discriminate
            | intros _; eexists _, _; split; [reflexivity|assumption] ]
    | first [ reflexivity
            | intros (p' & fs' & Hc & Hr); congruence ] ].
Qed.

(** X2: the [valid] flag of a returned result says whether the type-check
    process completed with exit status zero, and nothing else: what the
    execution did has no part in it. *)
Theorem valid_means_typecheck_passed code run w r w' :
  validate_swift_code h code run w = Returned r w' ->
  exists tmp,
    fresh_temp h ".swift" (files w) = inr tmp
    /\ (valid r = true
        <-> exists p fs, checked h code w tmp p fs /\ returncode p = 0).
Proof.
  intros H. pose proof (valid_flag_table code run w) as T.
  now rewrite H in T.
Qed.

(** X5: when the children leave the files alone and the temporary name is new,
    a call that returns leaves the files exactly as it found them. *)
Theorem files_restored_on_return code run w tmp r w' :
  quiet_children h ->
  fresh_temp h ".swift" (files w) = inr tmp ->
  files w !! tmp = None ->
  validate_swift_code h code run w = Returned r w' ->
  files w' = files w.
Proof.
  intros Hq Hf Hnew.
  assert (G : match validate_swift_code h code run w with
              | Returned _ w1 => files w1 = files w
              | Raised _ _ => True
              end).
  { explore; try exact I.
    all: repeat match goal with
           | H : child h ?a ?b ?c = (_, ?fs) |- _ =>
               let E := fresh in
               pose proof (Hq a b c) as E; rewrite H in E; cbn [snd] in E;
               subst fs
           end.
    all: match goal with
         | H1 : fresh_temp h _ _ = inr ?s |- _ =>
             assert (s = tmp) as -> by congruence
         end.
    all: rewrite insert_insert_eq, delete_insert_eq; now apply delete_id. }
  intros H. now rewrite H in G.
Qed.

(** What becomes of the call once the file is staged, by the answer of
    [os.unlink] in the [finally] clause. *)
Lemma cleanup_table code run w tmp :
  staged h code w tmp ->
  match files_at_cleanup h code run w tmp !! tmp,
        unlink_fault h tmp (files_at_cleanup h code run w tmp) with
  | Some _, None =>
      files (final_world (validate_swift_code h code run w))
      = delete tmp (files_at_cleanup h code run w tmp)
  | Some _, Some e =>
      exists w', validate_swift_code h code run w = Raised e w'
                 /\ files w' = files_at_cleanup h code run w tmp
  | None, _ =>
      exists w',
        validate_swift_code h code run w
        = Raised (Exception ("[Errno 2] No such file or directory: '"
                             +:+ tmp +:+ "'")) w'
        /\ files w' = files_at_cleanup h code run w tmp
  end.
Proof.
  intros [Hn Hw]. unfold files_at_cleanup, staged_files.
  cbv [validate_swift_code acquire guarded try_finally try_except try_block
       except_clauses bind ret get modify raise in_world on_result set_valid
       set_output add_output set_errors NamedTemporaryFile file_write
       subprocess_run os_unlink].
  rewrite Hn, Hw. tidy.
  destruct (child h (typecheck_cmd tmp) None _) as [[e0|p] fs]; tidy.
  - destruct e0; tidy;
      (destruct (fs !! tmp); [destruct (unlink_fault h tmp fs)|]); tidy;
      first [reflexivity | eexists; split; reflexivity].
  - destruct (Z.eqb_spec (returncode p) 0) as [_|_]; cbn [andb negb]; tidy.
    2: { (destruct (fs !! tmp); [destruct (unlink_fault h tmp fs)|]); tidy;
         first [reflexivity | eexists; split; reflexivity]. }
    destruct run; tidy.
    2: { (destruct (fs !! tmp); [destruct (unlink_fault h tmp fs)|]); tidy;
         first [reflexivity | eexists; split; reflexivity]. }
    destruct (child h (exec_cmd tmp) (Some 5) fs) as [[e1|q] fs']; tidy.
    + destruct e1; tidy;
        (destruct (fs' !! tmp); [destruct (unlink_fault h tmp fs')|]); tidy;
        first [reflexivity | eexists; split; reflexivity].
    + destruct (truthy (proc_stderr q)); tidy;
        (destruct (fs' !! tmp); [destruct (unlink_fault h tmp fs')|]); tidy;
        first [reflexivity | eexists; split; reflexivity].
Qed.

Lemma cleanup_fault_propagates code run w tmp e :
  staged h code w tmp ->
  unlink_raises h tmp (files_at_cleanup h code run w tmp) e ->
  exists w',
    validate_swift_code h code run w = Raised e w'
    /\ files w' = files_at_cleanup h code run w tmp.
Proof.
  intros Hs Hu. pose proof (cleanup_table code run w tmp Hs) as T.
  destruct Hu as [[Hx ->]|[[x Hx] Hf]]; rewrite Hx in T.
  - exact T.
  - now rewrite Hf in T.
Qed.

(** C2, as the code has it: an [Exception] other than the timeout raised
    by the type-check or the execution invocation is caught and reported
    in [errors] behind [Validation error: ] (with an invalid result and an
    empty [output] when the type-check invocation raised it), provided the
    temporary file can then be removed; a fault of creating or of writing
    the temporary file, and a fault of the removal in the [finally]
    clause, are not caught and reach the caller. *)
Theorem validate_fault_policy code run w :
  (forall tmp msg fs st,
      staged h code w tmp ->
      raises_at h code run w tmp (Exception msg) fs st ->
      removable h tmp fs ->
      exists r w',
        validate_swift_code h code run w = Returned r w'
        /\ errors r = "Validation error: " +:+ msg
        /\ (st = TypeCheck -> valid r = false /\ output r = ""))
  /\ (forall e,
         fresh_temp h ".swift" (files w) = inl e ->
         validate_swift_code h code run w = Raised e w)
  /\ (forall tmp e part,
         fresh_temp h ".swift" (files w) = inr tmp ->
         write_fault h tmp code = Some (e, part) ->
         exists w', validate_swift_code h code run w = Raised e w')
  /\ (forall tmp e,
         staged h code w tmp ->
         unlink_raises h tmp (files_at_cleanup h code run w tmp) e ->
         exists w', validate_swift_code h code run w = Raised e w').
Proof.
  split; [|split; [|split]].
  - intros tmp msg fs st Hs Hr Hrm.
    destruct (process_fault_is_reported h code run w tmp msg fs st Hs Hr Hrm)
      as (r & w' & H1 & H2 & _ & H4).
    now exists r, w'.
  - intros e He. now apply acquire_fault_propagates.
  - intros tmp e part Hn Hw. eexists.
    now apply (write_fault_propagates h code run w tmp e part).
  - intros tmp e Hs Hu.
    destruct (cleanup_fault_propagates code run w tmp e Hs Hu) as (w' & H & _).
    now exists w'.
Qed.

(** C3, as the code has it: whenever [validate_swift_code] returns a
    result the temporary file of the call is gone; after the call the
    file still exists in exactly two cases, both of which end in an
    exception: writing the code into it failed, or [os.unlink] was refused
    while the file was still there. *)
Theorem temp_file_fate code run w tmp :
  fresh_temp h ".swift" (files w) = inr tmp ->
  (forall r w',
      validate_swift_code h code run w = Returned r w' ->
      files w' !! tmp = None)
  /\ (is_Some (files (final_world (validate_swift_code h code run w)) !! tmp)
      <-> write_fault h tmp code <> None
          \/ (write_fault h tmp code = None
              /\ is_Some (files_at_cleanup h code run w tmp !! tmp)
              /\ unlink_fault h tmp (files_at_cleanup h code run w tmp)
                 <> None)).
Proof.
  intros Hn. split.
  - intros r w' H.
    destruct (returned_inv h _ _ _ _ _ H) as (tmp' & Hn' & Hgone & _).
    congruence.
  - destruct (write_fault h tmp code) as [[e part]|] eqn:Hw.
    + rewrite (write_fault_propagates h code run w tmp e part Hn Hw).
      cbn [final_world files set_files]. rewrite lookup_insert_eq.
      split; [intros _; now left | intros _; eauto].
    + pose proof (cleanup_table code run w tmp (conj Hn Hw)) as T.
      destruct (files_at_cleanup h code run w tmp !! tmp) as [x|] eqn:Hx.
      * destruct (unlink_fault h tmp (files_at_cleanup h code run w tmp))
          as [e|] eqn:Hu.
        -- destruct T as (w' & -> & Hf). cbn [final_world].
           rewrite Hf, Hx. split; [intros _; right|intros _; eauto].
           repeat split; eauto; discriminate.
        -- rewrite T, lookup_delete_eq.
           split; [intros [? ?]; discriminate|].
           intros [H|(_ & _ & H)]; contradiction.
      * destruct T as (w' & -> & Hf). cbn [final_world]. rewrite Hf, Hx.
        split; [intros [? ?]; discriminate|].
        intros [H|(_ & [? ?] & _)]; [contradiction|discriminate].
Qed.

Lemma passed_msg_nonempty rest : passed_msg +:+ rest <> "".
Proof. discriminate. Qed.

Lemma clean_result_table code run w :
  match validate_swift_code h code run w with
  | Returned r _ =>
      forall tmp,
        fresh_temp h ".swift" (files w) = inr tmp ->
        execution_clean h code run w tmp ->
        valid_with_output_only r \/ invalid_without_output r
  | Raised _ _ => True
  end.
Proof.
  explore; try exact I.
  all: intros tmp' Hf Hclean; injection Hf as <-.
  all: try (right; split; reflexivity).
  all: try (left; repeat split;
            rewrite ?append_assoc;
            first [apply passed_msg_nonempty
                  | rewrite <- (append_nil_r passed_msg);
                    apply passed_msg_nonempty ]).
  all: exfalso; eapply Hclean;
    eapply raises_in_execution; unfold checked, executed, staged_files;
    first [eassumption | reflexivity].
Qed.

(** C4, as the code has it: a result returned by a call whose execution
    step did not time out or raise has exactly one of two shapes: valid
    with a non-empty [output] and empty [errors], or invalid with an empty
    [output]; so [output] and [errors] are never both non-empty. *)
Theorem clean_result_has_one_shape code run w tmp r w' :
  validate_swift_code h code run w = Returned r w' ->
  fresh_temp h ".swift" (files w) = inr tmp ->
  execution_clean h code run w tmp ->
  ((valid_with_output_only r /\ ~ invalid_without_output r)
   \/ (~ valid_with_output_only r /\ invalid_without_output r))
  /\ ~ (output r <> "" /\ errors r <> "").
Proof.
  intros H Hf Hclean. pose proof (clean_result_table code run w) as T.
  rewrite H in T. specialize (T tmp Hf Hclean).
  unfold valid_with_output_only, invalid_without_output in *.
  destruct T as [(Hv & Ho & He)|(Hv & Ho)].
  - split; [left; split; [now repeat split|]|].
    + intros [Hv' _]. congruence.
    + intros [_ He']. contradiction.
  - split; [right; split; [|now split]|].
    + intros [Hv' _]. congruence.
    + intros [Ho' _]. contradiction.
Qed.

End ValidatorOutcomes.

(** ** The validator on particular ways out *)

Section ValidatorWays.

Import Validate Run.

Variable h : host.

Ltac tidy :=
  cbn [files spawned stdin stdout stderr set_files log_spawn outside result
       valid output errors final_world negb returncode proc_stdout
       proc_stderr] in *.

Ltac unfold_validate :=
  cbv [validate_swift_code acquire guarded try_finally try_except try_block
       except_clauses bind ret get modify raise in_world on_result set_valid
       set_output add_output set_errors NamedTemporaryFile file_write
       subprocess_run os_unlink staged checked executed removable
       staged_files] in *;
  tidy.

(** X1: without [run], code that passes the type-check gives a valid result
    with the success message alone, and only the type-checker was started. *)
Theorem accepted_code_without_run code w tmp p fs :
  staged h code w tmp ->
  checked h code w tmp p fs ->
  returncode p = 0 ->
  removable h tmp fs ->
  validate_swift_code h code false w
  = Returned (mkResult true "✓ Syntax and type checking passed" "")
      (mkWorld (delete tmp fs) (spawned w ++ [typecheck_cmd tmp])
               (stdin w) (stdout w) (stderr w)).
Proof.
  intros [Hn Hw] Hc Hrc [[x Hx] Hu].
  unfold_validate. rewrite Hn, Hw. tidy. rewrite Hc, Hrc.
  change (0 =? 0) with true. tidy. now rewrite Hx, Hu.
Qed.

(** X6: a fault while writing the code is raised to the caller, no
    process is started, and the temporary file stays behind, holding
    whatever part of the code had reached it. *)
Theorem write_fault_leaves_temp_file code run w tmp e part :
  fresh_temp h ".swift" (files w) = inr tmp ->
  write_fault h tmp code = Some (e, part) ->
  exists w',
    validate_swift_code h code run w = Raised e w'
    /\ files w' !! tmp = Some part
    /\ spawned w' = spawned w.
Proof.
  intros Hn Hw. unfold_validate. rewrite Hn, Hw.
  eexists. split; [reflexivity|]. tidy. split; [|reflexivity].
  apply lookup_insert_eq.
Qed.

(** X7: if the temporary file has disappeared by the time the execution is
    over, the call raises the file-not-found error of [os.unlink],
    whatever the execution itself returned or raised. *)
Theorem vanished_file_raises code w tmp p fs a fs' :
  staged h code w tmp ->
  checked h code w tmp p fs ->
  returncode p = 0 ->
  executed h tmp fs a fs' ->
  fs' !! tmp = None ->
  validate_swift_code h code true w
  = Raised (Exception ("[Errno 2] No such file or directory: '"
                       +:+ tmp +:+ "'"))
      (mkWorld fs' (spawned w ++ [typecheck_cmd tmp; exec_cmd tmp])
               (stdin w) (stdout w) (stderr w)).
Proof.
  intros [Hn Hw] Hc Hrc He Hx.
  unfold_validate. rewrite Hn, Hw. tidy. rewrite Hc, Hrc.
  change (0 =? 0) with true. tidy. rewrite He.
  destruct a as [[]|q]; tidy; [| | | |destruct (truthy (proc_stderr q)); tidy];
    rewrite Hx; cbv [set_files log_spawn]; tidy;
    rewrite <- app_assoc; reflexivity.
Qed.

(** X8: an exception that is not an [Exception] (an interrupt, an exit),
    raised while a process runs, is not turned into a result: it reaches
    the caller, after the temporary file has been removed. *)
Theorem interrupt_passes_through code run w tmp e fs st :
  staged h code w tmp ->
  raises_at h code run w tmp e fs st ->
  e = KeyboardInterrupt \/ (exists n, e = SystemExit n) ->
  removable h tmp fs ->
  exists w',
    validate_swift_code h code run w = Raised e w'
    /\ files w' = delete tmp fs.
Proof.
  intros [Hn Hw] Hr He [[x Hx] Hu].
  destruct Hr as [Hc | p fs2 Hc Hrc -> Hx2];
    unfold_validate; rewrite Hn, Hw; tidy; rewrite Hc; tidy.
  - destruct He as [->|[n ->]]; tidy; rewrite Hx, Hu; eexists; split; reflexivity.
  - rewrite Hrc. change (0 =? 0) with true. tidy. rewrite Hx2. tidy.
    destruct He as [->|[n ->]]; tidy; rewrite Hx, Hu; eexists; split; reflexivity.
Qed.

(** ** The command line of the validator *)

Lemma inline_code_wins file run view code w :
  code <> "" ->
  read_code h (mkArgs file run view (Some code)) w = Returned code w.
Proof. intros H. destruct code; [contradiction|reflexivity]. Qed.

(** X10: inline code that is not empty wins over a file name: the file is
    never opened, so the script behaves as if no file had been named, even
    when the named file does not exist. *)
Theorem inline_code_hides_file file run view code w :
  code <> "" ->
  script h (mkArgs file run view (Some code)) w
  = script h (mkArgs None run view (Some code)) w.
Proof.
  intros H. unfold script, main, bind.
  now rewrite !inline_code_wins by assumption.
Qed.

(** X11: where the code comes from, in order of priority: the inline
    code when it is not empty; else the named file when a name was given;
    else the standard input, announced on standard output.  An empty
    [--code] or an empty file name counts as absent. *)
Theorem code_source_priority args w c w' :
  read_code h args w = Returned c w' ->
  (arg_code args = Some c /\ c <> "" /\ w' = w)
  \/ (truthy_opt (arg_code args) = false
      /\ (exists path,
            arg_file args = Some path /\ path <> ""
            /\ files w !! path = Some c)
      /\ w' = w)
  \/ (truthy_opt (arg_code args) = false
      /\ truthy_opt (arg_file args) = false
      /\ c = stdin w
      /\ w' = to_stdout ("Reading from stdin..." +:+ nl) w).
Proof.
  unfold read_code.
  destruct (arg_code args) as [[|a code]|] eqn:Hc; cbn [truthy_opt truthy].
  2: { intros [= <- <-]. left. repeat split. discriminate. }
  all: destruct (arg_file args) as [[|b path]|] eqn:Hf;
    cbn [truthy_opt truthy].
  all: try (intros [= <- <-]; right; right; repeat split).
  all: change (default "" (Some (String b path))) with (String b path);
    unfold read_file;
    destruct (files w !! String b path) as [text|] eqn:Hl; [|discriminate];
    destruct (read_fault h (String b path)); [discriminate|];
    intros [= <- <-]; right; left; split; [reflexivity|];
    split; [|reflexivity];
    exists (String b path); repeat split; [discriminate|exact Hl].
Qed.


(** X13: with [--view] the code is never executed, whatever [--run] says and
    wherever the code comes from: the script starts the type-checker at
    most. *)
Theorem view_flag_never_executes file run code w :
  exists started,
    spawned (snd (script h (mkArgs file run true code) w))
      = (spawned w ++ started)%list
    /\ Forall (runs "swiftc") started.
Proof.
  assert (Hw0 : forall a w0,
             read_code h (mkArgs file run true code) w = a ->
             final_state a = w0 -> spawned w0 = spawned w).
  { intros a w0 <- <-. unfold read_code.
    destruct (truthy_opt _); [reflexivity|].
    destruct (truthy_opt _).
    - unfold read_file. destruct (files w !! _); [|reflexivity].
      destruct (read_fault h _); reflexivity.
    - reflexivity. }
  unfold script, main, bind.
  destruct (read_code h (mkArgs file run true code) w) as [c w0|e w0] eqn:R;
    specialize (Hw0 _ w0 eq_refl eq_refl).
  - unfold dispatch. cbn [arg_view]. unfold validate_swiftui_view.
    destruct (typecheck_only h (wrapper_head +:+ c +:+ wrapper_tail) w0)
      as (started & Hs & Hall).
    exists started. split; [|exact Hall]. rewrite <- Hw0, <- Hs. clear Hs.
    destruct (validate_swift_code h _ false w0) as [r w1|e w1];
      cbn [final_world].
    + unfold report, bind, print, print_err, modify, sys_exit, raise.
      destruct (valid r); reflexivity.
    + destruct e; reflexivity.
  - exists []. split; [|constructor]. rewrite app_nil_r, <- Hw0.
    destruct e; reflexivity.
Qed.

(** X9: an execution that times out does not change the verdict of the
    script: it reports the code as valid on standard output, writes
    nothing to the error stream and exits with status 0. *)
Theorem timeout_still_exits_zero code w tmp p fs m fs' :
  code <> "" ->
  staged h code w tmp ->
  checked h code w tmp p fs ->
  returncode p = 0 ->
  executed h tmp fs (inl (TimeoutExpired m)) fs' ->
  removable h tmp fs' ->
  exists w',
    script h (mkArgs None true false (Some code)) w = (0, w')
    /\ stdout w'
       = stdout w +:+ ("✅ VALID" +:+ nl +:+ passed_msg) +:+ nl
    /\ stderr w' = stderr w.
Proof.
  intros Hcode [Hn Hw] Hc Hrc He [[x Hx] Hu].
  unfold script, main, bind at 1. rewrite inline_code_wins by assumption.
  unfold bind, dispatch. cbn [arg_view arg_run].
  unfold_validate. rewrite Hn, Hw. tidy. rewrite Hc, Hrc.
  change (0 =? 0) with true. tidy. rewrite He. tidy. rewrite Hx, Hu. tidy.
  eexists. split; [reflexivity|]. split; reflexivity.
Qed.

End ValidatorWays.

(** ** The scaffolder: table, command line and layout *)

Section ScaffolderMore.

Import Scaffold Run.

Variable fspath : pypath -> string.
Variable tr : tree.
Variable usage_error : string -> string.

(** The keys of the table, read off it. *)
Lemma TEMPLATES_keys platform t :
  TEMPLATES !! platform = Some t ->
  (platform = "ios" /\ t = ios_template)
  \/ (platform = "macos" /\ t = macos_template)
  \/ (platform = "multiplatform" /\ t = multiplatform_template).
Proof.
  unfold TEMPLATES. intros H.
  apply lookup_insert_Some in H as [[<- <-]|[_ H]]; [now left|].
  apply lookup_insert_Some in H as [[<- <-]|[_ H]]; [now right; left|].
  apply lookup_insert_Some in H as [[<- <-]|[_ H]]; [now right; right|].
  rewrite lookup_empty in H. discriminate.
Qed.

Lemma choice_is_key platform :
  In platform platform_choices -> is_Some (TEMPLATES !! platform).
Proof. intros [<-|[<-|[<-|[]]]]; vm_compute; eauto. Qed.

(** X14: the values [--platform] accepts are exactly the keys of the
    table. *)
Theorem choices_are_the_template_keys platform :
  In platform platform_choices <-> is_Some (TEMPLATES !! platform).
Proof.
  split.
  - intros [<-|[<-|[<-|[]]]]; vm_compute; eauto.
  - intros [t H]. apply TEMPLATES_keys in H as [[-> _]|[[-> _]|[-> _]]];
      cbn; tauto.
Qed.

(** X15: which entries a record of the table puts in the manifest: the iOS
    entry unless the key is [macos], the macOS entry unless it is [ios];
    the test for [iOS] does not fire on [macOS]. *)
Theorem entries_follow_the_key platform t :
  TEMPLATES !! platform = Some t ->
  ios_entry t = (if String.eqb platform "macos" then "" else ".iOS(.v17)")
  /\ macos_entry t = (if String.eqb platform "ios" then "" else ".macOS(.v14)").
Proof.
  intros H. apply TEMPLATES_keys in H as [[-> ->]|[[-> ->]|[-> ->]]];
    split; vm_compute; reflexivity.
Qed.

(** In the full layout every file comes after the call that makes its
    directory. *)
Lemma layout_ordered name path t before dir file text after :
  layout name path t
  = (before ++ WriteText (Div dir file) text :: after)%list ->
  exists parents exist_ok, In (Mkdir dir parents exist_ok) before.
Proof.
  intros H. unfold layout in H.
  repeat match goal with
         | E : (_ :: _) = (?b ++ _ :: _)%list |- _ =>
             let x := fresh "op" in
             let b' := fresh "before" in
             let Hd := fresh "Hd" in
             destruct b as [|x b']; cbn [app] in E;
             [ injection E as Hd _;
               first [ discriminate Hd
                     | simplify_eq; eexists _, _; cbn [In]; eauto 10 ]
             | injection E as Hd E; subst x ]
         | E : [] = (?b ++ _ :: _)%list |- _ => destruct b; discriminate E
         end.
Qed.

(** X16: on every way out, return or fault, the operations the scaffolder
    has completed are an initial part of its layout, and every file
    written so far lies in a directory that an earlier, completed call of
    the same run has made. *)
Theorem files_follow_their_directories name platform path (s : site) :
  exists done n,
    ops (final_state
           (create_swiftui_app_structure fspath tr name platform path s))
    = (ops s ++ done)%list
    /\ done = take n (layout name path
                        (dict_get TEMPLATES platform ios_template))
    /\ forall before dir file text after,
         done = (before ++ WriteText (Div dir file) text :: after)%list ->
         exists parents exist_ok, In (Mkdir dir parents exist_ok) before.
Proof.
  assert (Hord : forall n before dir file text after,
             take n (layout name path
                       (dict_get TEMPLATES platform ios_template))
             = (before ++ WriteText (Div dir file) text :: after)%list ->
             exists parents exist_ok, In (Mkdir dir parents exist_ok) before).
  { intros n before dir file text after H.
    apply (layout_ordered name path
             (dict_get TEMPLATES platform ios_template) before dir file text
             (after ++ drop n (layout name path
                                 (dict_get TEMPLATES platform ios_template)))).
    rewrite <- (take_drop n (layout _ _ _)) at 1. rewrite H.
    now rewrite <- app_assoc. }
  destruct (create_cases fspath tr name platform path s)
    as [(s1 & Hc & Ho & _)|(e & s1 & n & Hc & Ho & _)];
    rewrite Hc; cbn [final_state].
  - exists (layout name path (dict_get TEMPLATES platform ios_template)), 6%nat.
    split; [exact Ho|]. split; [reflexivity|]. apply (Hord 6%nat).
  - exists (take n (layout name path
                      (dict_get TEMPLATES platform ios_template))), n.
    split; [exact Ho|]. split; [reflexivity|]. apply Hord.
Qed.

(** X17: through the command line the fallback is never taken: when [main]
    returns, the platform is a key of the table and the manifest written
    is the one of its record. *)
Theorem cli_uses_the_named_template c (s : site) s' :
  main fspath tr usage_error c s = Returned tt s' ->
  exists t,
    TEMPLATES !! default platform_default (given_platform c) = Some t
    /\ In (WriteText
             (Div (Div (Path (default path_default (given_path c)))
                       (given_name c)) "Package.swift")
             (package_swift (given_name c) t))
          (ops s').
Proof.
  assert (Hrun : forall p t,
             TEMPLATES !! p = Some t ->
             bind (create_swiftui_app_structure fspath tr (given_name c) p
                     (default path_default (given_path c)))
                  (fun _ => ret tt) s = Returned tt s' ->
             In (WriteText
                   (Div (Div (Path (default path_default (given_path c)))
                             (given_name c)) "Package.swift")
                   (package_swift (given_name c) t)) (ops s')).
  { intros p t Ht. unfold bind.
    destruct (create_cases fspath tr (given_name c) p
                (default path_default (given_path c)) s)
      as [(s1 & Hc & Ho & _)|(e & s1 & n & Hc & _)]; rewrite Hc;
      [|discriminate].
    intros [= <-]. rewrite Ho. unfold dict_get. rewrite Ht.
    cbn [default from_option id].
    apply in_or_app. right. unfold layout. cbn [In]. tauto. }
  unfold main, bind at 1, parse_args.
  destruct (given_platform c) as [p|] eqn:Hp; cbn [default from_option id].
  - destruct (bool_decide_reflect (p ∈ platform_choices)) as [Hin|].
    + apply list_elem_of_In, choice_is_key in Hin as [t Ht].
      cbv [ret]. cbn [arg_name arg_platform arg_path].
      intros H. exists t. split; [exact Ht|]. now apply (Hrun p).
    + unfold bind, complain, modify, raise. discriminate.
  - cbv [ret]. cbn [arg_name arg_platform arg_path].
    intros H. exists macos_template. split; [vm_compute; reflexivity|].
    apply (Hrun platform_default); [vm_compute; reflexivity|exact H].
Qed.

(** X18: a platform outside the choices ends the script with status 2
    once the parser has written its usage error to the error stream;
    nothing is created and nothing is printed on the standard output. *)
Theorem rejected_platform_creates_nothing name p path (s : site) :
  TEMPLATES !! p = None ->
  main fspath tr usage_error (mkCommandLine name (Some p) path) s
  = Raised (SystemExit 2)
      (mkSite (ops s) (terminal s) (err_terminal s +:+ usage_error p)).
Proof.
  intros H. unfold main, bind at 1, parse_args. cbn [given_platform].
  destruct (bool_decide_reflect (p ∈ platform_choices)) as [Hin|];
    [|reflexivity].
  apply list_elem_of_In, choice_is_key in Hin as [t Ht].
  congruence.
Qed.

End ScaffolderMore.

(** ** [create_xcode_project] *)

Section XcodeMore.

Import Scaffold Run.

Variable fspath : pypath -> string.
Variable tr : tree.
Variable package_init : list string -> pypath -> exn + Z.
Variable called_process_error : list string -> Z -> string.


End XcodeMore.

(** ** The further properties at concrete inputs *)

Section MoreInstances.

Import Validate Run.

Lemma accepted_code_without_run_witness :
  validate_swift_code passing_host good_code false empty_world
  = Returned (mkResult true "✓ Syntax and type checking passed" "")
      (mkWorld (delete tmp0 (staged0 good_code))
               ([] ++ [typecheck_cmd tmp0]) "" "" "").
Proof.
  apply (accepted_code_without_run passing_host good_code empty_world tmp0
           clean (staged0 good_code)).
  - split; reflexivity.
  - reflexivity.
  - reflexivity.
  - split; [exists good_code; vm_compute; reflexivity | reflexivity].
Defined.

Lemma valid_means_typecheck_passed_witness :
  exists tmp,
    fresh_temp looping_host ".swift" (files empty_world) = inr tmp
    /\ (valid (mkResult true passed_msg timeout_msg) = true
        <-> exists p fs,
              checked looping_host loop_code empty_world tmp p fs
              /\ returncode p = 0).
Proof.
  apply (valid_means_typecheck_passed looping_host loop_code true empty_world
           (mkResult true passed_msg timeout_msg)
           (mkWorld ∅ [typecheck_cmd tmp0; exec_cmd tmp0] "" "" "")).
  vm_compute. reflexivity.
Defined.

Lemma files_restored_on_return_witness :
  files (mkWorld {["main.swift" := good_code]}
                 [typecheck_cmd tmp0; exec_cmd tmp0] loop_code "" "")
  = files desk.
Proof.
  apply (files_restored_on_return crashing_host good_code true desk tmp0
           (mkResult true
              (execution_report
                 (mkCompleted 132 "partial" "Fatal error: index out of range"))
              "")).
  - intros cmd timeout fs. reflexivity.
  - reflexivity.
  - vm_compute. reflexivity.
  - vm_compute. reflexivity.
Defined.

Lemma write_fault_leaves_temp_file_witness :
  exists w',
    validate_swift_code unwritable_host good_code true empty_world
    = Raised (Exception "[Errno 28] No space left on device") w'
    /\ files w' !! tmp0 = Some "print"
    /\ spawned w' = spawned empty_world.
Proof.
  apply (write_fault_leaves_temp_file unwritable_host good_code true
           empty_world tmp0).
  - reflexivity.
  - reflexivity.
Defined.

Lemma vanished_file_raises_witness :
  validate_swift_code self_deleting_host good_code true empty_world
  = Raised (Exception ("[Errno 2] No such file or directory: '"
                       +:+ tmp0 +:+ "'"))
      (mkWorld (delete tmp0 (staged0 good_code))
               ([] ++ [typecheck_cmd tmp0; exec_cmd tmp0]) "" "" "").
Proof.
  apply (vanished_file_raises self_deleting_host good_code empty_world tmp0
           clean (staged0 good_code) (inr clean)).
  - split; reflexivity.
  - reflexivity.
  - reflexivity.
  - reflexivity.
  - apply lookup_delete_eq.
Defined.

Lemma interrupt_passes_through_witness :
  exists w',
    validate_swift_code interrupted_host good_code true empty_world
    = Raised KeyboardInterrupt w'
    /\ files w' = delete tmp0 (staged0 good_code).
Proof.
  apply (interrupt_passes_through interrupted_host good_code true empty_world
           tmp0 KeyboardInterrupt (staged0 good_code) TypeCheck).
  - split; reflexivity.
  - constructor. reflexivity.
  - left. reflexivity.
  - split; [exists good_code; vm_compute; reflexivity | reflexivity].
Defined.

Lemma timeout_still_exits_zero_witness :
  exists w',
    script looping_host (mkArgs None true false (Some loop_code)) empty_world
    = (0, w')
    /\ stdout w' = "" +:+ ("✅ VALID" +:+ nl +:+ passed_msg) +:+ nl
    /\ stderr w' = "".
Proof.
  apply (timeout_still_exits_zero looping_host loop_code empty_world tmp0
           clean (staged0 loop_code)
           "Command '['swift', '/tmp/tmp0.swift']' timed out after 5 seconds"
           (staged0 loop_code)).
  - discriminate.
  - split; reflexivity.
  - reflexivity.
  - reflexivity.
  - reflexivity.
  - split; [exists loop_code; vm_compute; reflexivity | reflexivity].
Defined.

Lemma inline_code_hides_file_witness :
  script passing_host (mkArgs (Some "nowhere.swift") false false
                         (Some good_code)) empty_world
  = script passing_host (mkArgs None false false (Some good_code)) empty_world.
Proof.
  apply (inline_code_hides_file passing_host (Some "nowhere.swift") false
           false good_code empty_world).
  discriminate.
Defined.

Lemma code_source_priority_witness :
  (arg_code (mkArgs None false false (Some "")) = Some loop_code
   /\ loop_code <> "" /\ to_stdout ("Reading from stdin..." +:+ nl) desk = desk)
  \/ (truthy_opt (arg_code (mkArgs None false false (Some ""))) = false
      /\ (exists path,
            arg_file (mkArgs None false false (Some "")) = Some path
            /\ path <> "" /\ files desk !! path = Some loop_code)
      /\ to_stdout ("Reading from stdin..." +:+ nl) desk = desk)
  \/ (truthy_opt (arg_code (mkArgs None false false (Some ""))) = false
      /\ truthy_opt (arg_file (mkArgs None false false (Some ""))) = false
      /\ loop_code = stdin desk
      /\ to_stdout ("Reading from stdin..." +:+ nl) desk
         = to_stdout ("Reading from stdin..." +:+ nl) desk).
Proof.
  apply (code_source_priority passing_host (mkArgs None false false (Some ""))
           desk loop_code (to_stdout ("Reading from stdin..." +:+ nl) desk)).
  reflexivity.
Defined.


End MoreInstances.

Section ScaffolderInstances.

Import Scaffold.

Lemma entries_follow_the_key_witness :
  ios_entry macos_template = "" /\ macos_entry macos_template = ".macOS(.v14)".
Proof.
  apply (entries_follow_the_key "macos" macos_template).
  vm_compute. reflexivity.
Defined.

(** In an empty output directory a plain name is scaffolded to the end,
    while a name with a slash stops at the directory under [Sources],
    after the manifest has been written and before anything is printed. *)
Lemma plain_name_is_scaffolded :
  exists s',
    create_swiftui_app_structure joined fresh_tree "Demo" "ios" "."
      (mkSite [] "" "")
    = Returned (Div (Path ".") "Demo") s'
    /\ ops s' = layout "Demo" "." ios_template.
Proof. eexists. split; vm_compute; reflexivity. Qed.

Lemma slash_name_stops_midway :
  exists e s',
    create_swiftui_app_structure joined fresh_tree "a/b" "ios" "."
      (mkSite [] "" "")
    = Raised e s'
    /\ ops s' = take 3 (layout "a/b" "." ios_template)
    /\ terminal s' = "".
Proof. eexists _, _. split; [|split]; vm_compute; reflexivity. Qed.

Lemma unknown_platform_falls_back_to_ios_witness :
  TEMPLATES !! "unknown-key" = None
  /\ lookup_template "unknown-key" (mkSite [] "" "")
     = Returned ios_template (mkSite [] "" "")
  /\ occurs (platforms ios_template) (package_swift "Demo" ios_template)
  /\ (forall text,
         In (WriteText (Div (Div (Path ".") "Demo") "Package.swift") text)
            (ops (Run.final_state
                    (create_swiftui_app_structure joined fresh_tree "Demo"
                       "unknown-key" "." (mkSite [] "" "")))) ->
         In (WriteText (Div (Div (Path ".") "Demo") "Package.swift") text) []
         \/ text = package_swift "Demo" ios_template)
  /\ In (WriteText (Div (Div (Path ".") "Demo") "Package.swift")
           (package_swift "Demo" ios_template))
        (ops (Run.final_state
                (create_swiftui_app_structure joined fresh_tree "Demo"
                   "unknown-key" "." (mkSite [] "" ""))))
  /\ occurs ("   Platform: " +:+ platforms ios_template +:+ nl)
       (terminal (Run.final_state
                    (create_swiftui_app_structure joined fresh_tree "Demo"
                       "unknown-key" "." (mkSite [] "" "")))).
Proof.
  split; [vm_compute; reflexivity|].
  destruct (unknown_platform_falls_back_to_ios joined fresh_tree "Demo"
              "unknown-key" "." (mkSite [] "" ""))
    as (H1 & H2 & H3 & H4).
  - vm_compute. reflexivity.
  - split; [exact H1|]. split; [exact H2|]. split; [exact H3|].
    apply H4. vm_compute. reflexivity.
Defined.

Lemma multiplatform_entries_lack_comma_witness :
  In (WriteText (Div (Div (Path ".") "Demo") "Package.swift")
        (package_swift "Demo" multiplatform_template))
     (ops (Run.final_state
             (create_swiftui_app_structure joined fresh_tree "Demo"
                "multiplatform" "." (mkSite [] "" "")))).
Proof.
  destruct (multiplatform_entries_lack_comma joined fresh_tree "Demo" "."
              (mkSite [] "" "")) as (_ & _ & H).
  apply H. vm_compute. reflexivity.
Defined.

Lemma cli_uses_the_named_template_witness :
  exists t,
    TEMPLATES !! "macos" = Some t
    /\ In (WriteText (Div (Div (Path ".") "Demo") "Package.swift")
             (package_swift "Demo" t))
          (ops (Run.final_state
                  (main joined fresh_tree (fun p => p)
                     (mkCommandLine "Demo" None None) (mkSite [] "" "")))).
Proof.
  apply (cli_uses_the_named_template joined fresh_tree (fun p => p)
           (mkCommandLine "Demo" None None) (mkSite [] "" "")).
  vm_compute. reflexivity.
Defined.

Lemma rejected_platform_creates_nothing_witness :
  main joined fresh_tree (fun p => "invalid choice: " +:+ p)
    (mkCommandLine "Demo" (Some "watchos") None) (mkSite [] "" "")
  = Raised (SystemExit 2) (mkSite [] "" ("" +:+ "invalid choice: watchos")).
Proof.
  apply (rejected_platform_creates_nothing joined fresh_tree
           (fun p => "invalid choice: " +:+ p) "Demo" "watchos" None
           (mkSite [] "" "")).
  vm_compute. reflexivity.
Defined.

End ScaffolderInstances.

(** ** The revised statements at concrete inputs *)

Section FaultInstances.

Import Validate Run.

Lemma validate_fault_policy_witness :
  (exists r w',
      validate_swift_code bare_host good_code true empty_world = Returned r w'
      /\ errors r
         = "Validation error: "
           +:+ "[Errno 2] No such file or directory: 'swiftc'"
      /\ valid r = false /\ output r = "")
  /\ validate_swift_code full_disk_host good_code true empty_world
     = Raised (Exception "[Errno 28] No space left on device") empty_world
  /\ (exists w',
         validate_swift_code unwritable_host good_code true empty_world
         = Raised (Exception "[Errno 28] No space left on device") w')
  /\ (exists w',
         validate_swift_code self_deleting_host good_code true empty_world
         = Raised (Exception ("[Errno 2] No such file or directory: '"
                              +:+ tmp0 +:+ "'")) w').
Proof.
  split; [|split; [|split]].
  - destruct (validate_fault_policy bare_host good_code true empty_world)
      as (P & _).
    destruct (P tmp0 "[Errno 2] No such file or directory: 'swiftc'"
                (staged0 good_code) TypeCheck) as (r & w' & H1 & H2 & H3).
    + split; reflexivity.
    + constructor. reflexivity.
    + split; [exists good_code; vm_compute; reflexivity | reflexivity].
    + exists r, w'. repeat split; try assumption; now apply H3.
  - destruct (validate_fault_policy full_disk_host good_code true empty_world)
      as (_ & P & _).
    apply P. reflexivity.
  - destruct (validate_fault_policy unwritable_host good_code true empty_world)
      as (_ & _ & P & _).
    apply (P tmp0 _ "print"); reflexivity.
  - destruct (validate_fault_policy self_deleting_host good_code true
                empty_world) as (_ & _ & _ & P).
    apply (P tmp0).
    + split; reflexivity.
    + left. split; [vm_compute; reflexivity | reflexivity].
Defined.

(** C3: on the way out through a failed write the temporary file is still
    there after the call. *)
Lemma temp_file_left_after_write_fault :
  fresh_temp unwritable_host ".swift" (files empty_world) = inr tmp0
  /\ exists e w',
       validate_swift_code unwritable_host good_code false empty_world
       = Raised e w'
       /\ is_Some (files w' !! tmp0).
Proof.
  split; [reflexivity|]. eexists _, _. split; [reflexivity|].
  vm_compute. eauto.
Qed.

Lemma temp_file_fate_witness :
  (forall r w',
      validate_swift_code looping_host loop_code true empty_world
      = Returned r w' ->
      files w' !! tmp0 = None)
  /\ (is_Some (files (final_world
                        (validate_swift_code looping_host loop_code true
                           empty_world)) !! tmp0)
      <-> write_fault looping_host tmp0 loop_code <> None
          \/ (write_fault looping_host tmp0 loop_code = None
              /\ is_Some (files_at_cleanup looping_host loop_code true
                            empty_world tmp0 !! tmp0)
              /\ unlink_fault looping_host tmp0
                   (files_at_cleanup looping_host loop_code true empty_world
                      tmp0)
                 <> None)).
Proof.
  apply (temp_file_fate looping_host loop_code true empty_world tmp0).
  reflexivity.
Defined.

Lemma clean_result_has_one_shape_witness :
  ((valid_with_output_only
      (mkResult true
         (execution_report
            (mkCompleted 132 "partial" "Fatal error: index out of range")) "")
    /\ ~ invalid_without_output
         (mkResult true
            (execution_report
               (mkCompleted 132 "partial" "Fatal error: index out of range"))
            ""))
   \/ (~ valid_with_output_only
         (mkResult true
            (execution_report
               (mkCompleted 132 "partial" "Fatal error: index out of range"))
            "")
       /\ invalid_without_output
            (mkResult true
               (execution_report
                  (mkCompleted 132 "partial"
                     "Fatal error: index out of range")) "")))
  /\ ~ (output
          (mkResult true
             (execution_report
                (mkCompleted 132 "partial" "Fatal error: index out of range"))
             "") <> ""
        /\ errors
             (mkResult true
                (execution_report
                   (mkCompleted 132 "partial"
                      "Fatal error: index out of range")) "") <> "").
Proof.
  apply (clean_result_has_one_shape crashing_host good_code true empty_world
           tmp0 _
           (mkWorld ∅ [typecheck_cmd tmp0; exec_cmd tmp0] "" "" "")).
  - vm_compute. reflexivity.
  - reflexivity.
  - intros e fs H. inversion H as [|p fs2 _ _ _ He]. discriminate He.
Defined.

End FaultInstances.
